(** * txaws.storage.client: the S3 client and its Query

    A shallow embedding of [src/txaws/storage/client.py] (Python 2).

    - Python [str] values are [string]s (byte strings), [None]-able
      attributes are [option]s, dictionaries are association lists kept in
      iteration order, and a header value is an [int] or a [str].
    - Exceptions are the [Raise] branch of [result]; the calls made to the
      credentials' [sign] method are logged next to the returned value.
    - What the module imports from elsewhere ([calculate_md5],
      [mimetypes.guess_type], [AWSCredentials.sign], [BaseQuery.__init__],
      [BaseQuery.get_page], [datetimeToString], [S3_ENDPOINT], [XML],
      [Time.fromISO8601TimeAndDate]) is a variable of the section. *)

From Stdlib Require Import String Ascii List ZArith Lia Bool.
From Stdlib Require Import Permutation Sorted OrdersEx DecimalString.
From Stdlib Require Import RelationClasses.
Import ListNotations.
Local Open Scope list_scope.
Local Open Scope string_scope.

(** ** Python values *)

(** The newline character of the literals ["\n"]. *)
Definition nl : string := String "010"%char EmptyString.

(** [str.lower()] on a byte string: the letters A-Z move to a-z. *)
Definition lower_char (c : ascii) : ascii :=
  let n := nat_of_ascii c in
  if (65 <=? n)%nat && (n <=? 90)%nat then ascii_of_nat (n + 32) else c.

Fixpoint lower (s : string) : string :=
  match s with
  | EmptyString => EmptyString
  | String c s' => String (lower_char c) (lower s')
  end.

(** [s.startswith(p)]. *)
Definition startswith (s p : string) : bool := String.prefix p s.

(** A header value: [len(self.data)] is an [int], the others are [str]. *)
Inductive hval : Type :=
| HInt (z : Z)
| HStr (s : string).

(** ["%s" % v]. *)
Definition str (v : hval) : string :=
  match v with
  | HInt z => NilZero.string_of_int (Z.to_int z)
  | HStr s => s
  end.

(** Truth value of a [str]-or-[None] attribute: [None] and [""] are false. *)
Definition truthy (o : option string) : bool :=
  match o with
  | None => false
  | Some s => negb (s =? "")
  end.

(** ** Exceptions *)

Inductive exn : Type :=
| AttributeError (obj attr : string)
| TypeError (msg : string).

Inductive result (A : Type) : Type :=
| Ok (a : A)
| Raise (e : exn).
Arguments Ok {A} a.
Arguments Raise {A} e.

(** ** Dictionaries

    A [dict] is the list of its items in iteration order. [d[k] = v]
    replaces the value of an existing key and adds a new key otherwise. *)

Definition dict (V : Type) : Type := list (string * V).

Fixpoint dict_get {V : Type} (d : dict V) (k : string) : option V :=
  match d with
  | [] => None
  | (k', v) :: d' => if k' =? k then Some v else dict_get d' k
  end.

Fixpoint dict_set {V : Type} (d : dict V) (k : string) (v : V) : dict V :=
  match d with
  | [] => [(k, v)]
  | (k', v') :: d' =>
      if k' =? k then (k, v) :: d' else (k', v') :: dict_set d' k v
  end.

(** ** Ordering of [(name, value)] tuples, as [list.sort()] compares them

    Strings compare byte by byte; an [int] is smaller than any [str];
    tuples compare by their first component, then by their second. *)

Definition hval_compare (a b : hval) : comparison :=
  match a, b with
  | HInt x, HInt y => Z.compare x y
  | HInt _, HStr _ => Lt
  | HStr _, HInt _ => Gt
  | HStr x, HStr y => String_as_OT.compare x y
  end.

Definition item_compare (a b : string * hval) : comparison :=
  match String_as_OT.compare (fst a) (fst b) with
  | Eq => hval_compare (snd a) (snd b)
  | c => c
  end.

(** [a <= b] for a three-way comparison. *)
Definition leb_of {A : Type} (cmp : A -> A -> comparison) (a b : A) : bool :=
  match cmp a b with
  | Gt => false
  | _ => true
  end.

Definition item_leb (a b : string * hval) : bool := leb_of item_compare a b.

Definition str_leb (a b : string) : bool := leb_of String_as_OT.compare a b.

Fixpoint insert (x : string * hval) (l : list (string * hval))
  : list (string * hval) :=
  match l with
  | [] => [x]
  | y :: l' => if item_leb x y then x :: l else y :: insert x l'
  end.

(** [l.sort()]: the ascending arrangement of [l]. *)
Fixpoint sort (l : list (string * hval)) : list (string * hval) :=
  match l with
  | [] => []
  | x :: l' => insert x (sort l')
  end.

(** ** Collaborators of the module *)

(** [txaws.credentials.AWSCredentials]: the two keys. *)
Record AWSCredentials : Type := {
  access_key : string;
  secret_key : string
}.

(** [txaws.service.AWSServiceEndpoint]: scheme, host and the method in
    effect; [get_host()] returns [host], [set_method(m)] stores [m]. *)
Record AWSServiceEndpoint : Type := {
  scheme : string;
  host : string;
  method : string
}.

Definition endpoint_get_host (e : AWSServiceEndpoint) : string := host e.

Definition set_method (e : AWSServiceEndpoint) (m : string)
  : AWSServiceEndpoint :=
  {| scheme := scheme e; host := host e; method := m |}.

(** ** Query *)

(** The attributes of a [Query] instance. *)
Record Query : Type := {
  action : string;
  creds : option AWSCredentials;
  endpoint : AWSServiceEndpoint;
  bucket : option string;
  object_name : option string;
  data : string;
  content_type : option string;
  metadata : dict string;
  date : string
}.

(** [Query.get_host] *)
Definition get_host (q : Query) : string :=
  if negb (truthy (bucket q)) then endpoint_get_host (endpoint q)
  else
    match bucket q with
    | Some b => b ++ "." ++ endpoint_get_host (endpoint q)
    | None => endpoint_get_host (endpoint q)
    end.

(** [Query.get_path] *)
Definition get_path (q : Query) : string :=
  match bucket q, object_name q with
  | Some _, Some name =>
      if truthy (Some name) then
        if startswith name "/" then name else "/" ++ name
      else "/"
  | _, _ => "/"
  end.

(** [Query.get_uri] *)
Definition get_uri (q : Query) : string :=
  scheme (endpoint q) ++ "://" ++ get_host q ++ get_path q.

(** [Query.get_canonicalized_amz_headers]: the lower-cased [x-amz-]
    headers, sorted, one ["name:value\n"] line each. *)
Definition amz_prefix : string := "x-amz-".

Definition amz_items (headers : dict hval) : list (string * hval) :=
  map (fun nv => (lower (fst nv), snd nv))
      (filter (fun nv => startswith (lower (fst nv)) amz_prefix) headers).

Definition amz_line (nv : string * hval) : string :=
  fst nv ++ ":" ++ str (snd nv) ++ nl.

Definition get_canonicalized_amz_headers (headers : dict hval) : string :=
  String.concat "" (map amz_line (sort (amz_items headers))).

(** ** Calls to the credentials' [sign] method

    A computation returns its value together with the [sign] calls it made,
    or raises. *)

Record SignCall : Type := {
  sc_creds : AWSCredentials;
  sc_text : string;
  sc_hash_type : string
}.

Definition M (A : Type) : Type := result (A * list SignCall).

Definition ret {A : Type} (a : A) : M A := Ok (a, []).

Definition raise {A : Type} (e : exn) : M A := Raise e.

Definition bind {A B : Type} (m : M A) (f : A -> M B) : M B :=
  match m with
  | Raise e => Raise e
  | Ok (a, t1) =>
      match f a with
      | Raise e => Raise e
      | Ok (b, t2) => Ok (b, (t1 ++ t2)%list)
      end
  end.

Notation "x <- m ;; k" := (bind m (fun x => k))
  (at level 61, m at next level, right associativity).

(** [headers.get(k, "")] used as an operand of [+] between strings: an
    [int] there raises [TypeError]. *)
Definition header_text (headers : dict hval) (k : string) : M string :=
  match dict_get headers k with
  | None => ret ""
  | Some (HStr s) => ret s
  | Some (HInt _) => raise (TypeError "cannot concatenate 'str' and 'int' objects")
  end.

(** The request handed to the transport by [get_page]. *)
Record Request : Type := {
  req_uri : string;
  req_method : string;
  req_postdata : string;
  req_headers : dict hval
}.

(** The header name of a metadata entry. *)
Definition meta_prefix : string := "x-amz-meta-".

Section Storage.

(** [txaws.util.calculate_md5] *)
Variable calculate_md5 : string -> string.

(** [mimetypes.guess_type(name, strict=False)]: [(type, encoding)]. *)
Variable guess_type : string -> option string * option string.

(** [AWSCredentials.sign(text, hash_type)] *)
Variable creds_sign : AWSCredentials -> string -> string -> string.

Definition call_sign (c : AWSCredentials) (text hash_type : string)
  : M string :=
  Ok (creds_sign c text hash_type,
      [{| sc_creds := c; sc_text := text; sc_hash_type := hash_type |}]).

(** [Query.set_content_type] *)
Definition set_content_type (q : Query) : Query :=
  if truthy (object_name q) && negb (truthy (content_type q)) then
    match object_name q with
    | Some name =>
        {| action := action q; creds := creds q; endpoint := endpoint q;
           bucket := bucket q; object_name := object_name q;
           data := data q;
           content_type := fst (guess_type name);
           metadata := metadata q; date := date q |}
    | None => q
    end
  else q.

(** [Query.sign] *)
Definition sign (q : Query) (headers : dict hval) : M string :=
  md5 <- header_text headers "Content-MD5" ;;
  ctype <- header_text headers "Content-Type" ;;
  d <- header_text headers "Date" ;;
  let text :=
    action q ++ nl ++ md5 ++ nl ++ ctype ++ nl ++ d ++ nl ++
    get_canonicalized_amz_headers headers ++ get_path q in
  match creds q with
  | Some c => call_sign c text "sha1"
  | None => raise (AttributeError "NoneType" "sign")
  end.

(** The loop of [Query.get_headers] over [self.metadata.iteritems()]. *)
Definition add_metadata (headers : dict hval) (md : dict string)
  : dict hval :=
  fold_left (fun h kv => dict_set h (meta_prefix ++ fst kv) (HStr (snd kv)))
            md headers.

(** [Query.get_headers]: the headers, and [self] after the call. *)
Definition get_headers (q : Query) : M (dict hval * Query) :=
  let headers :=
    [("Content-Length", HInt (Z.of_nat (String.length (data q))));
     ("Content-MD5", HStr (calculate_md5 (data q)));
     ("Date", HStr (date q))] in
  let headers := add_metadata headers (metadata q) in
  let q := set_content_type q in
  let headers :=
    match content_type q with
    | Some ct => dict_set headers "Content-Type" (HStr ct)
    | None => headers
    end in
  match creds q with
  | Some c =>
      signature <- sign q headers ;;
      ret (dict_set headers "Authorization"
             (HStr ("AWS " ++ access_key c ++ ":" ++ signature)), q)
  | None => ret (headers, q)
  end.

(** [BaseQuery.get_page(url, method=..., postdata=..., headers=...)] of
    [txaws.client.base]: it returns a Deferred or raises. *)
Variable Deferred : Type.
Variable get_page : Request -> result Deferred.

(** [Query.submit]: the arguments are evaluated from left to right, then
    [get_page] is called and its Deferred returned. *)
Definition submit (q : Query) : M Deferred :=
  let uri := get_uri q in
  let http_method := action q in
  let postdata := data q in
  hq <- get_headers q ;;
  match get_page {| req_uri := uri; req_method := http_method;
                    req_postdata := postdata; req_headers := fst hq |} with
  | Ok d => ret d
  | Raise e => raise e
  end.

End Storage.

(** ** Calling [Query(...)]

    The client passes positional and keyword arguments through
    [*a, **kw], so what reaches which parameter is decided by Python's
    argument binding. Arguments are dynamically typed values. *)

Inductive pyval : Type :=
| PyNone
| PyStr (s : string)
| PyDict (d : dict string)
| PyCreds (c : AWSCredentials)
| PyEndpoint (e : AWSServiceEndpoint).

Definition py_str (o : option string) : pyval :=
  match o with Some s => PyStr s | None => PyNone end.

Definition py_creds (o : option AWSCredentials) : pyval :=
  match o with Some c => PyCreds c | None => PyNone end.

Definition py_endpoint (o : option AWSServiceEndpoint) : pyval :=
  match o with Some e => PyEndpoint e | None => PyNone end.

(** Positional arguments fill the parameters from the left; what is left
    over goes to [*args]. *)
Fixpoint bind_positional (params : list (string * pyval)) (args : list pyval)
  : dict pyval * list pyval :=
  match params, args with
  | (p, _) :: params', a :: args' =>
      let (bound, rest) := bind_positional params' args' in
      ((p, a) :: bound, rest)
  | [], _ => ([], args)
  | _ :: _, [] => ([], [])
  end.

(** A keyword argument fills the parameter of its name, which must not
    have a value yet; a keyword that names no parameter goes to
    [**kwargs]. *)
Fixpoint bind_keywords (fname : string) (params : list (string * pyval))
    (bound extra kwargs : dict pyval) : M (dict pyval * dict pyval) :=
  match kwargs with
  | [] => ret (bound, extra)
  | (k, v) :: kwargs' =>
      match dict_get params k with
      | Some _ =>
          match dict_get bound k with
          | Some _ =>
              raise (TypeError (fname ++
                "() got multiple values for keyword argument '" ++ k ++ "'"))
          | None =>
              bind_keywords fname params (dict_set bound k v) extra kwargs'
          end
      | None => bind_keywords fname params bound (dict_set extra k v) kwargs'
      end
  end.

(** The value a parameter ends up with: its argument, else its default. *)
Definition param (params bound : dict pyval) (p : string) : pyval :=
  match dict_get bound p with
  | Some v => v
  | None =>
      match dict_get params p with
      | Some v => v
      | None => PyNone
      end
  end.

(** The parameters of [Query.__init__] before [*args, **kwargs]. *)
Definition Query_params : dict pyval :=
  [("bucket", PyNone); ("object_name", PyNone); ("data", PyStr "");
   ("content_type", PyNone); ("metadata", PyDict [])].

(** What [BaseQuery.__init__] stores on the instance. *)
Record BaseQuery : Type := {
  base_action : string;
  base_creds : option AWSCredentials;
  base_endpoint : option AWSServiceEndpoint
}.

(** A [Query] instance as its constructor leaves it: the five parameters
    hold whatever was bound to them. *)
Record QueryObj : Type := {
  o_bucket : pyval;
  o_object_name : pyval;
  o_data : pyval;
  o_content_type : pyval;
  o_metadata : pyval;
  o_action : string;
  o_creds : option AWSCredentials;
  o_endpoint : AWSServiceEndpoint;
  o_date : string
}.

Definition factory : Type := list pyval -> dict pyval -> M QueryObj.

(** An attribute of an [S3Client] instance. *)
Inductive attr : Type :=
| AFactory (f : factory)
| AValue (v : pyval).

(** An [S3Client] instance: its attribute dictionary. The class itself
    defines methods only. *)
Definition S3Client : Type := dict attr.

Definition getattr (self : S3Client) (name : string) : M attr :=
  match dict_get self name with
  | Some a => ret a
  | None => raise (AttributeError "S3Client" name)
  end.

Definition call (f : attr) (args : list pyval) (kwargs : dict pyval)
  : M QueryObj :=
  match f with
  | AFactory f => f args kwargs
  | AValue _ => raise (TypeError "object is not callable")
  end.

Definition value (a : attr) : pyval :=
  match a with
  | AValue v => v
  | AFactory _ => PyNone
  end.

Section Client.

(** [BaseQuery.__init__] of [txaws.client.base], called with the arguments
    left in [args] and [kwargs]. *)
Variable BaseQuery_init : list pyval -> dict pyval -> M BaseQuery.

(** [datetimeToString()] at the time of the call. *)
Variable now : string.

(** [AWSServiceEndpoint(S3_ENDPOINT)] *)
Variable s3_endpoint : AWSServiceEndpoint.

(** [Query.__init__] *)
Definition Query_init (args : list pyval) (kwargs : dict pyval)
  : M QueryObj :=
  let (bound, rest) := bind_positional Query_params args in
  bk <- bind_keywords "__init__" Query_params bound [] kwargs ;;
  base <- BaseQuery_init rest (snd bk) ;;
  let p := param Query_params (fst bk) in
  let endpoint :=
    match base_endpoint base with
    | None => s3_endpoint
    | Some e => if host e =? "" then s3_endpoint else e
    end in
  ret {| o_bucket := p "bucket"; o_object_name := p "object_name";
         o_data := p "data"; o_content_type := p "content_type";
         o_metadata := p "metadata";
         o_action := base_action base; o_creds := base_creds base;
         o_endpoint := set_method endpoint (base_action base);
         o_date := now |}.

(** [S3Client.__init__] *)
Definition S3Client_init (creds : option AWSCredentials)
    (endpoint : option AWSServiceEndpoint) (query_factory : option factory)
  : S3Client :=
  let query_factory :=
    match query_factory with
    | None => Query_init
    | Some f => f
    end in
  [("query_factory", AFactory query_factory);
   ("creds", AValue (py_creds creds));
   ("endpoint", AValue (py_endpoint endpoint))].

(** Each operation ends in [query.submit()]; its model returns the query
    that receives [submit()], or the exception raised before that. *)

(** [S3Client.make_request] *)
Definition make_request (self : S3Client) (a : list pyval)
    (kw : dict pyval) : M QueryObj :=
  f <- getattr self "request_factory" ;;
  c <- getattr self "creds" ;;
  e <- getattr self "endpoint" ;;
  call f a (("creds", value c) :: ("endpoint", value e) :: kw).

(** [S3Client.list_buckets], up to the submission of the query. *)
Definition list_buckets (self : S3Client) : M QueryObj :=
  f <- getattr self "query_factory" ;;
  c <- getattr self "creds" ;;
  e <- getattr self "endpoint" ;;
  call f [] [("action", PyStr "GET"); ("creds", value c);
             ("endpoint", value e)].

(** [S3Client.create_bucket] *)
Definition create_bucket (self : S3Client) (bucket : string) : M QueryObj :=
  f <- getattr self "query_factory" ;;
  c <- getattr self "creds" ;;
  e <- getattr self "endpoint" ;;
  call f [PyStr "PUT"; value c; value e] [("bucket", PyStr bucket)].

(** [S3Client.delete_bucket] *)
Definition delete_bucket (self : S3Client) (bucket : string) : M QueryObj :=
  make_request self [PyStr "DELETE"; PyStr bucket] [].

(** [S3Client.put_object] *)
Definition put_object (self : S3Client) (bucket object_name data : string)
    (content_type : option string) (metadata : dict string) : M QueryObj :=
  make_request self
    [PyStr "PUT"; PyStr bucket; PyStr object_name; PyStr data;
     py_str content_type; PyDict metadata] [].

(** [S3Client.get_object] *)
Definition get_object (self : S3Client) (bucket object_name : string)
  : M QueryObj :=
  make_request self [PyStr "GET"; PyStr bucket; PyStr object_name] [].

(** [S3Client.head_object] *)
Definition head_object (self : S3Client) (bucket object_name : string)
  : M QueryObj :=
  make_request self [PyStr "HEAD"; PyStr bucket; PyStr object_name] [].

(** [S3Client.delete_object] *)
Definition delete_object (self : S3Client) (bucket object_name : string)
  : M QueryObj :=
  make_request self [PyStr "DELETE"; PyStr bucket; PyStr object_name] [].

End Client.

(** ** Sample collaborators and requests

    Stand-ins for the imported functions and a few concrete requests, on
    which the model can be run. *)

Definition endswith (s p : string) : bool :=
  substring (String.length s - String.length p) (String.length p) s =? p.

Definition sample_md5 (s : string) : string := "md5<" ++ s ++ ">".

Definition sample_guess_type (name : string) : option string * option string :=
  if endswith name ".pdf" then (Some "application/pdf", None)
  else if endswith name ".txt" then (Some "text/plain", None)
  else (None, None).

Definition sample_sign (c : AWSCredentials) (text hash_type : string)
  : string :=
  hash_type ++ "<" ++ secret_key c ++ ">" ++ text ++ ";".

Definition sample_creds : AWSCredentials :=
  {| access_key := "AKIDEXAMPLE"; secret_key := "s3cr3t" |}.

Definition sample_endpoint : AWSServiceEndpoint :=
  {| scheme := "https"; host := "s3.amazonaws.com"; method := "PUT" |}.

Definition sample_date : string := "Thu, 17 Nov 2005 18:49:58 GMT".

(** [Query("PUT", creds, endpoint, bucket="docs", object_name="report.pdf",
    data="%PDF", metadata={"Team": "core", "owner": "ann"})] with every
    argument where it is meant to go. *)
Definition sample_query : Query :=
  {| action := "PUT"; creds := Some sample_creds;
     endpoint := sample_endpoint;
     bucket := Some "docs"; object_name := Some "report.pdf";
     data := "%PDF"; content_type := None;
     metadata := [("Team", "core"); ("owner", "ann")];
     date := sample_date |}.

Definition with_bucket (q : Query) (b : option string) : Query :=
  {| action := action q; creds := creds q; endpoint := endpoint q;
     bucket := b; object_name := object_name q; data := data q;
     content_type := content_type q; metadata := metadata q;
     date := date q |}.

Definition with_creds (q : Query) (c : option AWSCredentials) : Query :=
  {| action := action q; creds := c; endpoint := endpoint q;
     bucket := bucket q; object_name := object_name q; data := data q;
     content_type := content_type q; metadata := metadata q;
     date := date q |}.


Definition sample_headers : dict hval :=
  [("x-amz-meta-Team", HStr "core"); ("Content-MD5", HStr "md5<%PDF>");
   ("x-amz-meta-owner", HStr "ann")].

(** ** Auxiliary definitions for the statements *)

(** The signing string in the words of the specification: the method, the
    Content-MD5, Content-Type and Date values, each followed by one
    newline, then the canonicalized metadata headers, then the path. *)
Definition signing_string (http_method md5 ctype date amz path : string)
  : string :=
  String.concat "" (map (fun s => s ++ nl) [http_method; md5; ctype; date])
  ++ amz ++ path.

(** The value of a header, or the empty string when it is absent. *)
Definition header_or_empty (headers : dict hval) (k : string) : string :=
  match dict_get headers k with
  | Some v => str v
  | None => ""
  end.

(** The header is absent or holds a [str]. *)
Definition text_valued (headers : dict hval) (k : string) : Prop :=
  forall z, dict_get headers k <> Some (HInt z).

Definition or_empty (o : option string) : string :=
  match o with
  | Some s => s
  | None => ""
  end.




Definition sign_call (c : AWSCredentials) (text : string) : SignCall :=
  {| sc_creds := c; sc_text := text; sc_hash_type := "sha1" |}.

(** The headers of [get_headers] before the signature is added, in terms
    of the query left by [set_content_type]. *)
Definition unsigned_headers (calculate_md5 : string -> string) (q : Query)
  : dict hval :=
  let headers :=
    add_metadata
      [("Content-Length", HInt (Z.of_nat (String.length (data q))));
       ("Content-MD5", HStr (calculate_md5 (data q)));
       ("Date", HStr (date q))] (metadata q) in
  match content_type q with
  | Some ct => dict_set headers "Content-Type" (HStr ct)
  | None => headers
  end.

(** ** The typed view of a constructed query

    [as_query o] is the [Query] whose attributes are those of [o], when
    each of the five parameters holds a value of the type the methods
    expect ([str] or [None], a [str] payload, a [dict] of metadata). *)

Definition as_str (v : pyval) : option (option string) :=
  match v with
  | PyNone => Some None
  | PyStr s => Some (Some s)
  | _ => None
  end.

Definition as_query (o : QueryObj) : option Query :=
  match as_str (o_bucket o), as_str (o_object_name o), o_data o,
        as_str (o_content_type o), o_metadata o with
  | Some b, Some n, PyStr d, Some ct, PyDict md =>
      Some {| action := o_action o; creds := o_creds o;
              endpoint := o_endpoint o; bucket := b; object_name := n;
              data := d; content_type := ct; metadata := md;
              date := o_date o |}
  | _, _, _, _, _ => None
  end.

(** A stand-in for [BaseQuery.__init__]: it takes [action], [creds] and
    [endpoint] by position or by keyword and wants an action. *)
Definition sample_BaseQuery_init (args : list pyval) (kwargs : dict pyval)
  : M BaseQuery :=
  let (bound, rest) :=
    bind_positional
      [("action", PyNone); ("creds", PyNone); ("endpoint", PyNone)] args in
  let get k :=
    match dict_get bound k with
    | Some v => v
    | None => match dict_get kwargs k with Some v => v | None => PyNone end
    end in
  match rest, get "action" with
  | [], PyStr a =>
      ret {| base_action := a;
             base_creds :=
               match get "creds" with PyCreds c => Some c | _ => None end;
             base_endpoint :=
               match get "endpoint" with
               | PyEndpoint e => Some e
               | _ => None
               end |}
  | _, _ => raise (TypeError "The query requires an action parameter.")
  end.

(** ** Parsing the bucket list

    [txaws.util.XML] yields an ElementTree element: a tag, a text and
    child elements. [find] is the first child with a tag, [findtext] its
    text ([""] when the child has none, [None] when there is no such
    child), and iterating an element goes over its children. *)

#[warnings="-register-all"]
Inductive Element : Type :=
| Elem (tag : string) (text : option string) (children : list Element).

Definition elem_tag (e : Element) : string :=
  match e with Elem t _ _ => t end.

Definition elem_text (e : Element) : option string :=
  match e with Elem _ t _ => t end.

Definition elem_children (e : Element) : list Element :=
  match e with Elem _ _ c => c end.

Definition find (e : Element) (tag : string) : option Element :=
  List.find (fun c => elem_tag c =? tag) (elem_children e).

Definition findtext (e : Element) (tag : string) : option string :=
  match find e tag with
  | Some c => Some (or_empty (elem_text c))
  | None => None
  end.

Section ListBuckets.

(** [epsilon.extime.Time] and [Time.fromISO8601TimeAndDate]. *)
Variable Time : Type.
Variable fromISO8601TimeAndDate : option string -> result Time.

(** [txaws.util.XML] *)
Variable XML : string -> result Element.

(** One yielded [{"name": ..., "created": ...}]. *)
Record BucketInfo : Type := {
  b_name : option string;
  b_created : Time
}.

(** The loop of [_parse_list_buckets]: what the generator yields, and
    the exception that ends it, if any. *)
Fixpoint parse_buckets (buckets : list Element)
  : list BucketInfo * option exn :=
  match buckets with
  | [] => ([], None)
  | b :: rest =>
      let timeText := findtext b "CreationDate" in
      match fromISO8601TimeAndDate timeText with
      | Raise e => ([], Some e)
      | Ok t =>
          let (more, stop) := parse_buckets rest in
          ({| b_name := findtext b "Name"; b_created := t |} :: more, stop)
      end
  end.

(** [S3Client._parse_list_buckets], run to its end. *)
Definition _parse_list_buckets (xml_bytes : string)
  : list BucketInfo * option exn :=
  match XML xml_bytes with
  | Raise e => ([], Some e)
  | Ok root =>
      match find root "Buckets" with
      | None => ([], Some (TypeError "'NoneType' object is not iterable"))
      | Some buckets => parse_buckets (elem_children buckets)
      end
  end.

End ListBuckets.

(** A stand-in for [Time.fromISO8601TimeAndDate] (the text itself is the
    time, a missing text is refused), and a parsed bucket listing. *)
Definition sample_fromISO (o : option string) : result string :=
  match o with
  | Some s => Ok s
  | None => Raise (TypeError "expected string or buffer")
  end.

Definition sample_listing : Element :=
  Elem "ListAllMyBucketsResult" None
    [Elem "Owner" None [Elem "ID" (Some "abc") []];
     Elem "Buckets" None
       [Elem "Bucket" None
          [Elem "Name" (Some "alpha") [];
           Elem "CreationDate" (Some "2023-01-01T00:00:00Z") []];
        Elem "Bucket" None
          [Elem "Name" (Some "beta") [];
           Elem "CreationDate" (Some "2023-02-01T00:00:00Z") []]]].

Definition sample_XML (xml_bytes : string) : result Element :=
  if xml_bytes =? "" then Raise (TypeError "no element found")
  else Ok sample_listing.






(** * Properties *)

(** ** Strings *)

Lemma append_nil_r (s : string) : s ++ "" = s.
Proof. induction s as [|c s IH]; simpl; [reflexivity | now rewrite IH]. Qed.

Lemma append_assoc (s t u : string) : (s ++ t) ++ u = s ++ (t ++ u).
Proof. induction s as [|c s IH]; simpl; [reflexivity | now rewrite IH]. Qed.

Lemma length_append (s t : string) :
  String.length (s ++ t) = String.length s + String.length t.
Proof. induction s as [|c s IH]; simpl; [reflexivity | now rewrite IH]. Qed.

Lemma append_inv_l (p s t : string) : p ++ s = p ++ t -> s = t.
Proof.
  induction p as [|c p IH]; simpl; intros H; [exact H|].
  injection H as H. now apply IH.
Qed.

Lemma append_inv_r (p s t : string) : s ++ p = t ++ p -> s = t.
Proof.
  revert t. induction s as [|c s IH]; intros [|d t] H; simpl in H.
  - reflexivity.
  - apply (f_equal String.length) in H. simpl in H.
    rewrite length_append in H. lia.
  - apply (f_equal String.length) in H. simpl in H.
    rewrite length_append in H. lia.
  - injection H as Hc H. subst d. f_equal. now apply IH.
Qed.

(** ** Addressing *)

Lemma get_path_no_bucket (q : Query) : bucket q = None -> get_path q = "/".
Proof. unfold get_path. intros ->. reflexivity. Qed.

Lemma get_path_with_bucket (q : Query) (b : option string) :
  (b = None <-> bucket q = None) -> get_path (with_bucket q b) = get_path q.
Proof.
  unfold get_path, with_bucket; simpl. intros [H1 H2].
  destruct b as [b|], (bucket q) as [b'|]; try reflexivity.
  - discriminate (H2 eq_refl).
  - discriminate (H1 eq_refl).
Qed.

(** C4, as stated, fails: a Query with an object name but no bucket has
    path ["/"], not ["/"] followed by the object name. *)
Lemma get_path_unset_bucket_counterexample :
  let q := with_bucket sample_query None in
  object_name q = Some "report.pdf" /\
  startswith "report.pdf" "/" = false /\
  get_path q = "/" /\
  get_path q <> "/" ++ "report.pdf".
Proof. repeat split. discriminate. Qed.

(** C4 (amended): for a Query whose bucket is set, [get_path] is ["/"]
    followed by an object name that does not start with ["/"], an object
    name that starts with ["/"] verbatim, and ["/"] with no object name;
    it is ["/"] as well whenever no bucket is set. *)
Theorem get_path_spec (q : Query) (b : string) :
  bucket q = Some b ->
  (forall name, object_name q = Some name ->
                startswith name "/" = false -> get_path q = "/" ++ name) /\
  (forall name, object_name q = Some name ->
                startswith name "/" = true -> get_path q = name) /\
  (object_name q = None -> get_path q = "/") /\
  (forall b', get_path (with_bucket q None) = "/" /\
              get_path (with_bucket q (Some b')) = get_path q).
Proof.
  intros Hb. unfold get_path. rewrite Hb.
  split; [|split; [|split]].
  - intros name -> Hs. rewrite Hs.
    destruct name as [|c name]; reflexivity.
  - intros name -> Hs. rewrite Hs.
    destruct name as [|c name]; [discriminate Hs | reflexivity].
  - intros ->. reflexivity.
  - intros b'. split; reflexivity.
Qed.

Lemma get_path_spec_witness :
  bucket sample_query = Some "docs" /\
  get_path sample_query = "/report.pdf" /\
  get_path (with_bucket sample_query None) = "/".
Proof.
  pose proof (get_path_spec sample_query "docs" eq_refl) as [H1 [_ [_ H4]]].
  split; [reflexivity|]. split.
  - apply (H1 "report.pdf"); reflexivity.
  - apply (H4 "").
Defined.

(** C8, as stated, fails at the empty bucket name: [get_host] returns the
    endpoint's host, not ["." ++ host]. *)
Lemma get_host_empty_bucket_counterexample :
  let q := with_bucket sample_query (Some "") in
  bucket q = Some "" /\
  endpoint_get_host (endpoint q) = "s3.amazonaws.com" /\
  get_host q = "s3.amazonaws.com" /\
  get_host q <> "" ++ "." ++ "s3.amazonaws.com".
Proof. repeat split. discriminate. Qed.

(** C8 (amended): for a non-empty bucket name [b] and endpoint host [h],
    [get_host] is [b ++ "." ++ h]; with no bucket set, or with the empty
    bucket name, it is [h] unchanged. *)
Theorem get_host_spec (q : Query) (h : string) :
  endpoint_get_host (endpoint q) = h ->
  (forall b, bucket q = Some b -> b <> "" -> get_host q = b ++ "." ++ h) /\
  (bucket q = None -> get_host q = h) /\
  (bucket q = Some "" -> get_host q = h).
Proof.
  intros Hh. unfold get_host.
  split; [|split].
  - intros b -> Hne. simpl.
    destruct (String.eqb_spec b "") as [E|_]; [contradiction|].
    simpl. now rewrite Hh.
  - intros ->. exact Hh.
  - intros ->. exact Hh.
Qed.

Lemma get_host_spec_witness :
  endpoint_get_host (endpoint sample_query) = "s3.amazonaws.com" /\
  get_host sample_query = "docs.s3.amazonaws.com" /\
  get_host (with_bucket sample_query None) = "s3.amazonaws.com".
Proof.
  split; [reflexivity|]. split.
  - apply (proj1 (get_host_spec sample_query "s3.amazonaws.com" eq_refl)
             "docs"); [reflexivity | discriminate].
  - apply (proj1 (proj2 (get_host_spec (with_bucket sample_query None)
                           "s3.amazonaws.com" eq_refl))).
    reflexivity.
Defined.

(** ** The order used by [sort] *)

Section CompareOrder.

Variable A : Type.
Variable cmp : A -> A -> comparison.
Hypothesis cmp_eq : forall a b, cmp a b = Eq <-> a = b.
Hypothesis cmp_opp : forall a b, cmp b a = CompOpp (cmp a b).
Hypothesis cmp_lt_trans :
  forall a b c, cmp a b = Lt -> cmp b c = Lt -> cmp a c = Lt.

Lemma cmp_leb_total (a b : A) :
  leb_of cmp a b = true \/ leb_of cmp b a = true.
Proof.
  unfold leb_of. rewrite (cmp_opp a b).
  destruct (cmp a b); simpl; auto.
Qed.

Lemma cmp_leb_antisym (a b : A) :
  leb_of cmp a b = true -> leb_of cmp b a = true -> a = b.
Proof.
  unfold leb_of. rewrite (cmp_opp a b).
  destruct (cmp a b) eqn:E; simpl; try discriminate.
  intros _ _. now apply cmp_eq.
Qed.

Lemma cmp_leb_trans (a b c : A) :
  leb_of cmp a b = true -> leb_of cmp b c = true -> leb_of cmp a c = true.
Proof.
  unfold leb_of.
  destruct (cmp a b) eqn:E1; try discriminate;
    destruct (cmp b c) eqn:E2; try discriminate; intros _ _.
  - apply cmp_eq in E1. subst b. now rewrite E2.
  - apply cmp_eq in E1. subst b. now rewrite E2.
  - apply cmp_eq in E2. subst c. now rewrite E1.
  - now rewrite (cmp_lt_trans a b c E1 E2).
Qed.

End CompareOrder.

Lemma str_compare_eq (a b : string) : String_as_OT.compare a b = Eq <-> a = b.
Proof.
  destruct (String_as_OT.compare_spec a b) as [E|L|L]; split;
    try discriminate; try reflexivity; try (intros _; exact E).
  - intros ->. exfalso. exact (irreflexivity L).
  - intros ->. exfalso. exact (irreflexivity L).
Qed.

Lemma str_compare_opp (a b : string) :
  String_as_OT.compare b a = CompOpp (String_as_OT.compare a b).
Proof.
  destruct (String_as_OT.compare_spec a b) as [E|L|L],
           (String_as_OT.compare_spec b a) as [E'|L'|L'];
    simpl; try reflexivity; exfalso;
    try (rewrite E in *; exact (irreflexivity L'));
    try (rewrite E' in *; exact (irreflexivity L));
    exact (irreflexivity (transitivity L L')).
Qed.

Lemma str_compare_lt_trans (a b c : string) :
  String_as_OT.compare a b = Lt -> String_as_OT.compare b c = Lt ->
  String_as_OT.compare a c = Lt.
Proof. intros H1 H2. exact (transitivity (R := String_as_OT.lt) H1 H2). Qed.

Lemma hval_compare_eq (a b : hval) : hval_compare a b = Eq <-> a = b.
Proof.
  destruct a as [x|x], b as [y|y]; simpl.
  - rewrite Z.compare_eq_iff. split; [now intros -> | now intros [= ->]].
  - split; discriminate.
  - split; discriminate.
  - rewrite str_compare_eq. split; [now intros -> | now intros [= ->]].
Qed.

Lemma hval_compare_opp (a b : hval) :
  hval_compare b a = CompOpp (hval_compare a b).
Proof.
  destruct a as [x|x], b as [y|y]; simpl; try reflexivity.
  - apply Z.compare_antisym.
  - apply str_compare_opp.
Qed.

Lemma hval_compare_lt_trans (a b c : hval) :
  hval_compare a b = Lt -> hval_compare b c = Lt -> hval_compare a c = Lt.
Proof.
  destruct a as [x|x], b as [y|y], c as [z|z]; simpl;
    try discriminate; try reflexivity.
  - rewrite !Z.compare_lt_iff. lia.
  - apply str_compare_lt_trans.
Qed.

Lemma item_compare_eq (a b : string * hval) : item_compare a b = Eq <-> a = b.
Proof.
  destruct a as [n v], b as [n' v']. unfold item_compare. simpl.
  destruct (String_as_OT.compare n n') eqn:E.
  - apply str_compare_eq in E. subst n'. rewrite hval_compare_eq.
    split; [now intros -> | now intros [= ->]].
  - split; [discriminate|]. intros [= -> ->].
    rewrite (proj2 (str_compare_eq n' n') eq_refl) in E. discriminate.
  - split; [discriminate|]. intros [= -> ->].
    rewrite (proj2 (str_compare_eq n' n') eq_refl) in E. discriminate.
Qed.

Lemma item_compare_opp (a b : string * hval) :
  item_compare b a = CompOpp (item_compare a b).
Proof.
  unfold item_compare. rewrite (str_compare_opp (fst a) (fst b)).
  destruct (String_as_OT.compare (fst a) (fst b)); simpl; try reflexivity.
  apply hval_compare_opp.
Qed.

Lemma item_compare_lt_trans (a b c : string * hval) :
  item_compare a b = Lt -> item_compare b c = Lt -> item_compare a c = Lt.
Proof.
  unfold item_compare.
  destruct (String_as_OT.compare (fst a) (fst b)) eqn:E1; try discriminate;
    destruct (String_as_OT.compare (fst b) (fst c)) eqn:E2; try discriminate.
  - apply str_compare_eq in E1, E2. rewrite E1, E2.
    rewrite (proj2 (str_compare_eq (fst c) (fst c)) eq_refl).
    apply hval_compare_lt_trans.
  - apply str_compare_eq in E1. rewrite E1, E2. auto.
  - apply str_compare_eq in E2. rewrite <- E2, E1. auto.
  - rewrite (str_compare_lt_trans _ _ _ E1 E2). auto.
Qed.

Lemma item_leb_total (a b : string * hval) :
  item_leb a b = true \/ item_leb b a = true.
Proof. exact (cmp_leb_total _ item_compare item_compare_opp a b). Qed.

Lemma item_leb_antisym (a b : string * hval) :
  item_leb a b = true -> item_leb b a = true -> a = b.
Proof.
  exact (cmp_leb_antisym _ item_compare item_compare_eq item_compare_opp a b).
Qed.

Lemma item_leb_trans (a b c : string * hval) :
  item_leb a b = true -> item_leb b c = true -> item_leb a c = true.
Proof.
  exact (cmp_leb_trans _ item_compare item_compare_eq item_compare_lt_trans
           a b c).
Qed.

(** Tuples in ascending order have their names in ascending order. *)
Lemma item_leb_name (a b : string * hval) :
  item_leb a b = true -> str_leb (fst a) (fst b) = true.
Proof.
  unfold item_leb, item_compare, str_leb, leb_of.
  destruct (String_as_OT.compare (fst a) (fst b)); auto.
Qed.

(** ** Sorting *)

Lemma insert_perm (x : string * hval) (l : list (string * hval)) :
  Permutation (insert x l) (x :: l).
Proof.
  induction l as [|y l IH]; simpl; [reflexivity|].
  destruct (item_leb x y); [reflexivity|].
  rewrite IH. apply perm_swap.
Qed.

Lemma sort_perm (l : list (string * hval)) : Permutation (sort l) l.
Proof.
  induction l as [|x l IH]; simpl; [reflexivity|].
  rewrite insert_perm. now constructor.
Qed.

Lemma insert_sorted (x : string * hval) (l : list (string * hval)) :
  StronglySorted (fun a b => item_leb a b = true) l ->
  StronglySorted (fun a b => item_leb a b = true) (insert x l).
Proof.
  induction 1 as [|y l Hs IH Hy]; simpl.
  - repeat constructor.
  - destruct (item_leb x y) eqn:E.
    + constructor; [now constructor|].
      constructor; [exact E|].
      eapply Forall_impl; [|exact Hy].
      intros z Hz. exact (item_leb_trans x y z E Hz).
    + constructor; [exact IH|].
      apply (Permutation_Forall (Permutation_sym (insert_perm x l))).
      constructor; [|exact Hy].
      destruct (item_leb_total x y) as [H|H]; [congruence | exact H].
Qed.

Lemma sort_sorted (l : list (string * hval)) :
  StronglySorted (fun a b => item_leb a b = true) (sort l).
Proof.
  induction l as [|x l IH]; simpl; [constructor | now apply insert_sorted].
Qed.

Lemma insert_comm (x y : string * hval) (l : list (string * hval)) :
  insert x (insert y l) = insert y (insert x l).
Proof.
  induction l as [|z l IH]; simpl.
  - destruct (item_leb x y) eqn:Exy, (item_leb y x) eqn:Eyx; try reflexivity.
    + now rewrite (item_leb_antisym x y Exy Eyx).
    + destruct (item_leb_total x y); congruence.
  - destruct (item_leb y z) eqn:Eyz, (item_leb x z) eqn:Exz; simpl;
      destruct (item_leb x y) eqn:Exy, (item_leb y x) eqn:Eyx;
      rewrite ?Eyz, ?Exz; try reflexivity;
      try (now rewrite (item_leb_antisym x y Exy Eyx));
      try (destruct (item_leb_total x y); congruence);
      try (rewrite (item_leb_trans x y z Exy Eyz) in Exz; discriminate);
      try (rewrite (item_leb_trans y x z Eyx Exz) in Eyz; discriminate);
      try (now rewrite IH).
Qed.

(** The result of [sort] does not depend on the order of its input. *)
Lemma sort_permutation (l l' : list (string * hval)) :
  Permutation l l' -> sort l = sort l'.
Proof.
  induction 1 as [|x l l' _ IH|x y l|l l' l'' _ IH1 _ IH2]; simpl.
  - reflexivity.
  - now rewrite IH.
  - apply insert_comm.
  - now rewrite IH1.
Qed.

Lemma amz_items_permutation (h h' : dict hval) :
  Permutation h h' -> Permutation (amz_items h) (amz_items h').
Proof.
  intros H. unfold amz_items. apply Permutation_map.
  induction H as [|x l l' _ IH|x y l|l l' l'' _ IH1 _ IH2]; simpl.
  - reflexivity.
  - destruct (startswith (lower (fst x)) amz_prefix); [now constructor | exact IH].
  - destruct (startswith (lower (fst x)) amz_prefix),
             (startswith (lower (fst y)) amz_prefix);
      try reflexivity. apply perm_swap.
  - now rewrite IH1.
Qed.

Lemma StronglySorted_weaken {A : Type} (R R' : A -> A -> Prop) (l : list A) :
  (forall a b, R a b -> R' a b) -> StronglySorted R l -> StronglySorted R' l.
Proof.
  intros HR. induction 1 as [|a l Hs IH Ha]; constructor; [exact IH|].
  eapply Forall_impl; [|exact Ha]. intros b. apply HR.
Qed.

(** C5: the canonicalized string is the concatenation of one
    ["name:value\n"] line per header whose lower-cased name starts with
    ["x-amz-"], the names lower-cased; the lines are in ascending
    lexicographic order of these names; and the string is the same for
    every order in which the mapping yields its headers. *)
Theorem canonicalized_amz_headers_sorted (headers headers' : dict hval) :
  Permutation headers headers' ->
  exists items : list (string * hval),
    get_canonicalized_amz_headers headers =
      String.concat ""
        (map (fun nv => fst nv ++ ":" ++ str (snd nv) ++ nl) items) /\
    Permutation items
      (map (fun nv => (lower (fst nv), snd nv))
         (filter (fun nv => startswith (lower (fst nv)) "x-amz-") headers)) /\
    StronglySorted (fun a b => str_leb (fst a) (fst b) = true) items /\
    get_canonicalized_amz_headers headers' =
      get_canonicalized_amz_headers headers.
Proof.
  intros Hp. exists (sort (amz_items headers)). repeat split.
  - apply sort_perm.
  - eapply StronglySorted_weaken; [|apply sort_sorted].
    intros a b. apply item_leb_name.
  - unfold get_canonicalized_amz_headers.
    now rewrite (sort_permutation _ _
                   (amz_items_permutation _ _ (Permutation_sym Hp))).
Qed.

Lemma canonicalized_amz_headers_sorted_witness :
  Permutation sample_headers (rev sample_headers) /\
  get_canonicalized_amz_headers (rev sample_headers) =
    get_canonicalized_amz_headers sample_headers /\
  get_canonicalized_amz_headers sample_headers =
    "x-amz-meta-owner:ann" ++ nl ++ "x-amz-meta-team:core" ++ nl.
Proof.
  assert (Hp : Permutation sample_headers (rev sample_headers))
    by apply Permutation_rev.
  destruct (canonicalized_amz_headers_sorted _ _ Hp) as (items & _ & _ & _ & H).
  split; [exact Hp|]. split; [exact H | reflexivity].
Defined.

(** ** Dictionaries *)

Lemma dict_get_set_eq {V : Type} (d : dict V) (k : string) (v : V) :
  dict_get (dict_set d k v) k = Some v.
Proof.
  induction d as [|[k' v'] d IH]; simpl.
  - now rewrite String.eqb_refl.
  - destruct (String.eqb_spec k' k) as [E|N]; simpl.
    + now rewrite String.eqb_refl.
    + destruct (String.eqb_spec k' k); [contradiction | exact IH].
Qed.

Lemma dict_get_set_neq {V : Type} (d : dict V) (k k' : string) (v : V) :
  k' <> k -> dict_get (dict_set d k' v) k = dict_get d k.
Proof.
  intros N. induction d as [|[k0 v0] d IH]; simpl.
  - destruct (String.eqb_spec k' k); [contradiction | reflexivity].
  - destruct (String.eqb_spec k0 k') as [E|N0]; simpl.
    + subst k0. destruct (String.eqb_spec k' k); [contradiction | reflexivity].
    + destruct (String.eqb_spec k0 k); [reflexivity | exact IH].
Qed.

Lemma startswith_append (p s : string) : startswith (p ++ s) p = true.
Proof.
  unfold startswith. induction p as [|c p IH]; simpl.
  - destruct s; reflexivity.
  - destruct (ascii_dec c c) as [_|N]; [exact IH | contradiction].
Qed.

(** The metadata loop only touches headers named [x-amz-meta-...]. *)
Lemma dict_get_add_metadata (md : dict string) (h : dict hval) (k : string) :
  startswith k meta_prefix = false ->
  dict_get (add_metadata h md) k = dict_get h k.
Proof.
  intros Hk. unfold add_metadata. revert h.
  induction md as [|[key v] md IH]; intros h; simpl; [reflexivity|].
  rewrite IH. apply dict_get_set_neq.
  intros E. rewrite <- E in Hk.
  change (startswith (meta_prefix ++ key) meta_prefix = false) in Hk.
  rewrite startswith_append in Hk. discriminate.
Qed.

(** Every metadata header is an [x-amz-] header. *)
Lemma metadata_header_is_amz (key : string) :
  startswith (lower (meta_prefix ++ key)) amz_prefix = true.
Proof. reflexivity. Qed.

Lemma amz_items_set_other (d : dict hval) (k : string) (v : hval) :
  startswith (lower k) amz_prefix = false ->
  amz_items (dict_set d k v) = amz_items d.
Proof.
  intros Hk. unfold amz_items. f_equal.
  induction d as [|[k' v'] d IH]; simpl.
  - now rewrite Hk.
  - destruct (String.eqb_spec k' k) as [E|N]; simpl.
    + subst k'. now rewrite Hk.
    + now rewrite IH.
Qed.

(** ** Headers and signing *)

Section StorageProperties.

Variable calculate_md5 : string -> string.
Variable guess_type : string -> option string * option string.
Variable creds_sign : AWSCredentials -> string -> string -> string.

(** [set_content_type] changes [content_type] only. *)
Lemma set_content_type_frame (q : Query) :
  let q' := set_content_type guess_type q in
  action q' = action q /\ creds q' = creds q /\ endpoint q' = endpoint q /\
  bucket q' = bucket q /\ object_name q' = object_name q /\
  data q' = data q /\ metadata q' = metadata q /\ date q' = date q.
Proof.
  unfold set_content_type.
  destruct (truthy (object_name q) && negb (truthy (content_type q)));
    [destruct (object_name q) eqn:E|]; simpl; rewrite ?E;
    repeat split; reflexivity.
Qed.

Lemma get_path_set_content_type (q : Query) :
  get_path (set_content_type guess_type q) = get_path q.
Proof.
  destruct (set_content_type_frame q) as (_ & _ & _ & Hb & Ho & _).
  unfold get_path. now rewrite Hb, Ho.
Qed.

Lemma unsigned_headers_fixed (q : Query) (k : string) :
  startswith k meta_prefix = false -> k <> "Content-Type" ->
  dict_get (unsigned_headers calculate_md5 q) k =
  dict_get [("Content-Length", HInt (Z.of_nat (String.length (data q))));
            ("Content-MD5", HStr (calculate_md5 (data q)));
            ("Date", HStr (date q))] k.
Proof.
  intros Hk Hct. unfold unsigned_headers.
  destruct (content_type q) as [ct|].
  - rewrite dict_get_set_neq by congruence. now apply dict_get_add_metadata.
  - now apply dict_get_add_metadata.
Qed.

Lemma unsigned_headers_content_type (q : Query) :
  dict_get (unsigned_headers calculate_md5 q) "Content-Type" =
  option_map HStr (content_type q).
Proof.
  unfold unsigned_headers. destruct (content_type q) as [ct|]; simpl.
  - apply dict_get_set_eq.
  - now rewrite dict_get_add_metadata.
Qed.

Lemma signing_string_eq (a md5 ctype d amz path : string) :
  a ++ nl ++ md5 ++ nl ++ ctype ++ nl ++ d ++ nl ++ amz ++ path =
  signing_string a md5 ctype d amz path.
Proof.
  unfold signing_string. cbn [map String.concat].
  change ("" ++ ?s) with s. now rewrite !append_assoc.
Qed.

Lemma header_text_value (headers : dict hval) (k : string) :
  text_valued headers k ->
  header_text headers k = ret (header_or_empty headers k).
Proof.
  unfold text_valued, header_text, header_or_empty. intros H.
  destruct (dict_get headers k) as [[z|s]|]; try reflexivity.
  now destruct (H z).
Qed.

(** [sign] in closed form, for headers whose signed values are strings. *)
Lemma sign_eq (q : Query) (c : AWSCredentials) (headers : dict hval) :
  creds q = Some c ->
  text_valued headers "Content-MD5" ->
  text_valued headers "Content-Type" ->
  text_valued headers "Date" ->
  let text :=
    signing_string (action q)
      (header_or_empty headers "Content-MD5")
      (header_or_empty headers "Content-Type")
      (header_or_empty headers "Date")
      (get_canonicalized_amz_headers headers) (get_path q) in
  sign creds_sign q headers =
  Ok (creds_sign c text "sha1",
      [{| sc_creds := c; sc_text := text; sc_hash_type := "sha1" |}]).
Proof.
  intros Hc H1 H2 H3 text. unfold sign.
  rewrite (header_text_value _ _ H1), (header_text_value _ _ H2),
    (header_text_value _ _ H3).
  cbn [bind ret]. rewrite Hc, signing_string_eq. reflexivity.
Qed.

(** [get_headers] in closed form. *)
Lemma get_headers_eq (q : Query) :
  let q' := set_content_type guess_type q in
  let h := unsigned_headers calculate_md5 q' in
  let text :=
    signing_string (action q) (calculate_md5 (data q))
      (or_empty (content_type q')) (date q)
      (get_canonicalized_amz_headers h) (get_path q) in
  get_headers calculate_md5 guess_type creds_sign q =
  match creds q with
  | None => Ok ((h, q'), [])
  | Some c =>
      Ok ((dict_set h "Authorization"
             (HStr ("AWS " ++ access_key c ++ ":" ++
                    creds_sign c text "sha1")), q'),
          [{| sc_creds := c; sc_text := text; sc_hash_type := "sha1" |}])
  end.
Proof.
  intros q' h text.
  destruct (set_content_type_frame q) as (Ha & Hc & _ & _ & _ & Hd & Hm & Hdt).
  fold q' in Ha, Hc, Hd, Hm, Hdt.
  assert (Hh : h =
    match content_type q' with
    | Some ct =>
        dict_set (add_metadata
          [("Content-Length", HInt (Z.of_nat (String.length (data q))));
           ("Content-MD5", HStr (calculate_md5 (data q)));
           ("Date", HStr (date q))] (metadata q)) "Content-Type" (HStr ct)
    | None =>
        add_metadata
          [("Content-Length", HInt (Z.of_nat (String.length (data q))));
           ("Content-MD5", HStr (calculate_md5 (data q)));
           ("Date", HStr (date q))] (metadata q)
    end).
  { unfold h, unsigned_headers. now rewrite Hd, Hm, Hdt. }
  unfold get_headers. fold q'. rewrite <- Hh, Hc.
  destruct (creds q) as [c|] eqn:Ec; [|reflexivity].
  assert (Hmd5 : dict_get h "Content-MD5" = Some (HStr (calculate_md5 (data q)))).
  { unfold h. rewrite unsigned_headers_fixed by (reflexivity || discriminate).
    now rewrite Hd. }
  assert (Hdate : dict_get h "Date" = Some (HStr (date q))).
  { unfold h. rewrite unsigned_headers_fixed by (reflexivity || discriminate).
    now rewrite Hdt. }
  assert (Hct : dict_get h "Content-Type" = option_map HStr (content_type q')).
  { apply unsigned_headers_content_type. }
  rewrite (sign_eq q' c h).
  - pose proof (get_path_set_content_type q) as Hp. fold q' in Hp.
    cbn [bind ret]. unfold header_or_empty.
    rewrite Hmd5, Hdate, Hct, Ha, Hp.
    destruct (content_type q'); reflexivity.
  - now rewrite Hc.
  - intros z. rewrite Hmd5. discriminate.
  - intros z. rewrite Hct. destruct (content_type q'); discriminate.
  - intros z. rewrite Hdate. discriminate.
Qed.

Lemma header_or_empty_set_other (h : dict hval) (k k' : string) (v : hval) :
  k' <> k -> header_or_empty (dict_set h k' v) k = header_or_empty h k.
Proof.
  intros N. unfold header_or_empty. now rewrite dict_get_set_neq.
Qed.

Lemma canonicalized_set_other (h : dict hval) (k : string) (v : hval) :
  startswith (lower k) amz_prefix = false ->
  get_canonicalized_amz_headers (dict_set h k v) =
  get_canonicalized_amz_headers h.
Proof.
  intros Hk. unfold get_canonicalized_amz_headers.
  now rewrite amz_items_set_other.
Qed.

(** What the unsigned headers hold under the names that are signed. *)
Lemma unsigned_headers_signed_values (q : Query) :
  let h := unsigned_headers calculate_md5 q in
  header_or_empty h "Content-MD5" = calculate_md5 (data q) /\
  header_or_empty h "Content-Type" = or_empty (content_type q) /\
  header_or_empty h "Date" = date q.
Proof.
  intros h. unfold header_or_empty, h.
  rewrite (unsigned_headers_fixed q "Content-MD5"),
    (unsigned_headers_fixed q "Date") by (reflexivity || discriminate).
  rewrite unsigned_headers_content_type.
  destruct (content_type q); repeat split; reflexivity.
Qed.

(** C3: for a Query with credentials, [sign] calls the credentials' [sign]
    once, with the hash type ["sha1"] and with the text made of the method,
    the Content-MD5, Content-Type and Date header values (empty when
    absent), each followed by one newline, then the canonicalized [x-amz-]
    headers, then the path; its result is the result of that call. The
    same holds for the one call [get_headers] makes, with respect to the
    headers it returns, whose Authorization carries the result. *)
Theorem sign_signing_string (q : Query) (c : AWSCredentials) :
  creds q = Some c ->
  (forall headers : dict hval,
     text_valued headers "Content-MD5" ->
     text_valued headers "Content-Type" ->
     text_valued headers "Date" ->
     let text :=
       signing_string (action q)
         (header_or_empty headers "Content-MD5")
         (header_or_empty headers "Content-Type")
         (header_or_empty headers "Date")
         (get_canonicalized_amz_headers headers) (get_path q) in
     sign creds_sign q headers =
     Ok (creds_sign c text "sha1",
         [{| sc_creds := c; sc_text := text; sc_hash_type := "sha1" |}])) /\
  (exists (headers : dict hval) (q' : Query) (text : string),
     get_headers calculate_md5 guess_type creds_sign q =
     Ok ((headers, q'),
         [{| sc_creds := c; sc_text := text; sc_hash_type := "sha1" |}]) /\
     text =
       signing_string (action q)
         (header_or_empty headers "Content-MD5")
         (header_or_empty headers "Content-Type")
         (header_or_empty headers "Date")
         (get_canonicalized_amz_headers headers) (get_path q) /\
     dict_get headers "Authorization" =
       Some (HStr ("AWS " ++ access_key c ++ ":" ++
                   creds_sign c text "sha1"))).
Proof.
  intros Hc. split.
  - intros headers H1 H2 H3. now apply sign_eq.
  - pose proof (get_headers_eq q) as H. cbv zeta in H. rewrite Hc in H.
    eexists _, _, _. split; [exact H|]. split.
    + rewrite !header_or_empty_set_other by discriminate.
      rewrite canonicalized_set_other by reflexivity.
      destruct (unsigned_headers_signed_values
                  (set_content_type guess_type q)) as (E1 & E2 & E3).
      destruct (set_content_type_frame q) as (_ & _ & _ & _ & _ & Hd & _ & Hdt).
      cbv zeta in E1, E2, E3, Hd, Hdt.
      now rewrite E1, E2, E3, Hd, Hdt.
    + apply dict_get_set_eq.
Qed.

(** C6: for a Query without credentials, [get_headers] makes no call to a
    signing capability and returns headers with no Authorization entry,
    and with the Content-Length, Content-MD5 and Date entries. *)
Theorem get_headers_without_credentials (q : Query) :
  creds q = None ->
  exists (headers : dict hval) (q' : Query),
    get_headers calculate_md5 guess_type creds_sign q =
      Ok ((headers, q'), []) /\
    dict_get headers "Authorization" = None /\
    dict_get headers "Content-Length" =
      Some (HInt (Z.of_nat (String.length (data q)))) /\
    dict_get headers "Content-MD5" = Some (HStr (calculate_md5 (data q))) /\
    dict_get headers "Date" = Some (HStr (date q)).
Proof.
  intros Hc. pose proof (get_headers_eq q) as H. cbv zeta in H.
  rewrite Hc in H. eexists _, _. split; [exact H|].
  destruct (set_content_type_frame q) as (_ & _ & _ & _ & _ & Hd & _ & Hdt).
  cbv zeta in Hd, Hdt.
  rewrite (unsigned_headers_fixed _ "Authorization"),
    (unsigned_headers_fixed _ "Content-Length"),
    (unsigned_headers_fixed _ "Content-MD5"),
    (unsigned_headers_fixed _ "Date") by (reflexivity || discriminate).
  rewrite Hd, Hdt. repeat split.
Qed.

(** C7: for a Query with an object name and no content type,
    [get_headers] takes the content type from [guess_type] on the object
    name: a guessed type is the value of the Content-Type header and the
    third line of the text that is signed; without a guess there is no
    Content-Type header. With [guess_type] mapping ["report.pdf"] to
    ["application/pdf"], that object name gets that Content-Type. (The
    empty object name is not looked up: it is covered when [guess_type]
    has no type for it.) *)
Theorem get_headers_guessed_content_type (q : Query) (name : string) :
  object_name q = Some name ->
  name <> "" \/ fst (guess_type "") = None ->
  content_type q = None ->
  exists (headers : dict hval) (q' : Query) (calls : list SignCall),
    get_headers calculate_md5 guess_type creds_sign q =
      Ok ((headers, q'), calls) /\
    content_type q' = fst (guess_type name) /\
    dict_get headers "Content-Type" =
      option_map HStr (fst (guess_type name)) /\
    (forall c, creds q = Some c ->
       exists amz,
         calls =
           [{| sc_creds := c;
               sc_text :=
                 signing_string (action q) (calculate_md5 (data q))
                   (or_empty (fst (guess_type name))) (date q) amz
                   (get_path q);
               sc_hash_type := "sha1" |}]) /\
    (name = "report.pdf" ->
     fst (guess_type "report.pdf") = Some "application/pdf" ->
     dict_get headers "Content-Type" = Some (HStr "application/pdf")).
Proof.
  intros Ho Hn Hct.
  assert (Hq : content_type (set_content_type guess_type q) =
               fst (guess_type name)).
  { unfold set_content_type. rewrite Ho, Hct. simpl.
    destruct (String.eqb_spec name "") as [E|_]; [|reflexivity].
    simpl. rewrite Hct, E.
    destruct Hn as [Hn|Hn]; [contradiction | now rewrite Hn]. }
  pose proof (get_headers_eq q) as H. cbv zeta in H.
  assert (Hh : forall s,
    dict_get (dict_set (unsigned_headers calculate_md5
                          (set_content_type guess_type q))
                "Authorization" s) "Content-Type" =
    option_map HStr (fst (guess_type name))).
  { intros s. rewrite dict_get_set_neq by discriminate.
    now rewrite unsigned_headers_content_type, Hq. }
  destruct (creds q) as [c|] eqn:Ec.
  - eexists _, _, _. split; [exact H|]. split; [exact Hq|].
    split; [apply Hh|]. split.
    + intros c' [= <-]. eexists. now rewrite Hq.
    + intros -> Hg. now rewrite Hh, Hg.
  - eexists _, _, _. split; [exact H|]. split; [exact Hq|].
    assert (Hh' : dict_get (unsigned_headers calculate_md5
                              (set_content_type guess_type q))
                    "Content-Type" =
                  option_map HStr (fst (guess_type name)))
      by now rewrite unsigned_headers_content_type, Hq.
    split; [exact Hh'|]. split.
    + intros c' [=].
    + intros -> Hg. now rewrite Hh', Hg.
Qed.


(** A successful [sign] is one call of the credentials' [sign]. *)
Lemma sign_inv (q : Query) (headers : dict hval) (s : string)
    (calls : list SignCall) :
  sign creds_sign q headers = Ok (s, calls) ->
  exists c : AWSCredentials,
    creds q = Some c /\
    s = creds_sign c
          (signing_string (action q)
             (header_or_empty headers "Content-MD5")
             (header_or_empty headers "Content-Type")
             (header_or_empty headers "Date")
             (get_canonicalized_amz_headers headers) (get_path q)) "sha1" /\
    calls =
      [sign_call c
         (signing_string (action q)
            (header_or_empty headers "Content-MD5")
            (header_or_empty headers "Content-Type")
            (header_or_empty headers "Date")
            (get_canonicalized_amz_headers headers) (get_path q))].
Proof.
  unfold sign, header_text, header_or_empty.
  destruct (dict_get headers "Content-MD5") as [[?|md5]|];
    try discriminate;
    (destruct (dict_get headers "Content-Type") as [[?|ct]|];
     try discriminate);
    (destruct (dict_get headers "Date") as [[?|d]|]; try discriminate);
    cbn [bind ret raise];
    (destruct (creds q) as [c|]; [|discriminate]);
    unfold call_sign; cbn [app]; rewrite signing_string_eq;
    intros [= <- <-]; exists c; repeat split.
Qed.









Lemma set_content_type_with_bucket (q : Query) (b : option string) :
  set_content_type guess_type (with_bucket q b) =
  with_bucket (set_content_type guess_type q) b.
Proof.
  unfold set_content_type.
  change (object_name (with_bucket q b)) with (object_name q).
  change (content_type (with_bucket q b)) with (content_type q).
  destruct (truthy (object_name q) && negb (truthy (content_type q)));
    [|reflexivity].
  destruct (object_name q) eqn:E; reflexivity.
Qed.

Lemma get_host_differs (q : Query) (b1 b2 : string) :
  b1 <> b2 ->
  get_host (with_bucket q (Some b1)) <> get_host (with_bucket q (Some b2)).
Proof.
  intros Hne. unfold get_host, with_bucket, endpoint_get_host; simpl.
  set (h := host (endpoint q)).
  destruct (String.eqb_spec b1 "") as [E1|N1],
           (String.eqb_spec b2 "") as [E2|N2]; simpl; intros H.
  - congruence.
  - apply (f_equal String.length) in H. rewrite !length_append in H.
    destruct b2; [contradiction | simpl in H; lia].
  - apply (f_equal String.length) in H. rewrite !length_append in H.
    destruct b1; [contradiction | simpl in H; lia].
  - apply Hne. now apply append_inv_r in H.
Qed.

(** C10: two Queries that differ in the bucket name only get the same
    result from [sign] on the same headers, call included, and the same
    headers and calls from [get_headers]; the text that is signed ends
    with [get_path], which is the same for both; [get_host] and [get_uri]
    differ when the names differ. *)
Theorem sign_ignores_bucket_name (q : Query) (b1 b2 : string) :
  let q1 := with_bucket q (Some b1) in
  let q2 := with_bucket q (Some b2) in
  (forall headers, sign creds_sign q1 headers = sign creds_sign q2 headers) /\
  get_path q1 = get_path q2 /\
  (forall headers s calls,
     sign creds_sign q1 headers = Ok (s, calls) ->
     exists c before,
       calls = [sign_call c (before ++ get_path q1)] /\
       s = creds_sign c (before ++ get_path q1) "sha1") /\
  (exists headers q1' q2' calls,
     get_headers calculate_md5 guess_type creds_sign q1 =
       Ok ((headers, q1'), calls) /\
     get_headers calculate_md5 guess_type creds_sign q2 =
       Ok ((headers, q2'), calls)) /\
  (b1 <> b2 -> get_host q1 <> get_host q2 /\ get_uri q1 <> get_uri q2).
Proof.
  intros q1 q2.
  assert (Hp : get_path q1 = get_path q2) by reflexivity.
  split; [|split; [exact Hp|split; [|split]]].
  - intros headers. unfold sign. now rewrite Hp.
  - intros headers s calls H.
    destruct (sign_inv _ _ _ _ H) as (c & _ & Hs & Hcalls).
    exists c. eexists. unfold signing_string in Hs, Hcalls.
    rewrite <- !append_assoc in Hs, Hcalls. split; [exact Hcalls | exact Hs].
  - unfold q1, q2. rewrite !get_headers_eq. cbv zeta.
    rewrite !set_content_type_with_bucket.
    change (creds (with_bucket q (Some b1))) with (creds q).
    change (creds (with_bucket q (Some b2))) with (creds q).
    destruct (creds q) as [c|]; eexists _, _, _, _; split; reflexivity.
  - intros Hne. split; [now apply get_host_differs|].
    unfold get_uri. rewrite <- Hp. intros H.
    apply append_inv_l, append_inv_l, append_inv_r in H.
    now apply (get_host_differs q b1 b2).
Qed.

End StorageProperties.

(** ** The client *)

Section ClientProperties.

Variable BaseQuery_init : list pyval -> dict pyval -> M BaseQuery.
Variable now : string.
Variable s3_endpoint : AWSServiceEndpoint.

(** A client as [S3Client.__init__] builds it has no [request_factory]. *)
Lemma S3Client_init_no_request_factory (creds : option AWSCredentials)
    (endpoint : option AWSServiceEndpoint) (query_factory : option factory) :
  getattr (S3Client_init BaseQuery_init now s3_endpoint creds endpoint
             query_factory) "request_factory" =
  Raise (AttributeError "S3Client" "request_factory").
Proof. reflexivity. Qed.

Lemma make_request_raises (creds : option AWSCredentials)
    (endpoint : option AWSServiceEndpoint) (query_factory : option factory)
    (a : list pyval) (kw : dict pyval) :
  make_request (S3Client_init BaseQuery_init now s3_endpoint creds endpoint
                  query_factory) a kw =
  Raise (AttributeError "S3Client" "request_factory").
Proof. reflexivity. Qed.

(** C1: on a client built by [S3Client.__init__], [put_object] raises
    [AttributeError] for the attribute [request_factory] before any Query
    is constructed, and so do [get_object], [head_object],
    [delete_object] and [delete_bucket]: no request is issued. *)
Theorem make_request_operations_raise (creds : option AWSCredentials)
    (endpoint : option AWSServiceEndpoint) (query_factory : option factory)
    (bucket object_name data : string) (content_type : option string)
    (metadata : dict string) :
  let client :=
    S3Client_init BaseQuery_init now s3_endpoint creds endpoint
      query_factory in
  let err := Raise (AttributeError "S3Client" "request_factory") in
  put_object client bucket object_name data content_type metadata = err /\
  get_object client bucket object_name = err /\
  head_object client bucket object_name = err /\
  delete_object client bucket object_name = err /\
  delete_bucket client bucket = err.
Proof. repeat split. Qed.

(** Binding the arguments of [create_bucket] to the parameters of
    [Query.__init__]: ["PUT"] lands in [bucket]. *)
Lemma create_bucket_binding (c e : pyval) :
  bind_positional Query_params [PyStr "PUT"; c; e] =
  ([("bucket", PyStr "PUT"); ("object_name", c); ("data", e)], []).
Proof. reflexivity. Qed.

(** C2: on a client with the default query factory, [create_bucket]
    raises [TypeError]: the positional ["PUT"] is bound to the parameter
    [bucket] of [Query.__init__], which the keyword [bucket] then names a
    second time; no Query is constructed or submitted. *)
Theorem create_bucket_raises (creds : option AWSCredentials)
    (endpoint : option AWSServiceEndpoint) (bucket : string) :
  create_bucket
    (S3Client_init BaseQuery_init now s3_endpoint creds endpoint None)
    bucket =
  Raise (TypeError
           "__init__() got multiple values for keyword argument 'bucket'").
Proof. reflexivity. Qed.

(** With every argument passed by keyword, as [list_buckets] does, the
    constructor yields the query that [create_bucket] is after. *)
Lemma Query_init_keywords (c e : pyval) (b : string) (base : BaseQuery) :
  BaseQuery_init []
    [("action", PyStr "PUT"); ("creds", c); ("endpoint", e)] = ret base ->
  exists ep,
    Query_init BaseQuery_init now s3_endpoint []
      [("action", PyStr "PUT"); ("creds", c); ("endpoint", e);
       ("bucket", PyStr b)] =
    ret {| o_bucket := PyStr b; o_object_name := PyNone;
           o_data := PyStr ""; o_content_type := PyNone;
           o_metadata := PyDict [];
           o_action := base_action base; o_creds := base_creds base;
           o_endpoint := ep; o_date := now |}.
Proof.
  intros H. eexists. unfold Query_init. simpl. rewrite H. reflexivity.
Qed.

Lemma list_buckets_constructs (creds : option AWSCredentials)
    (endpoint : option AWSServiceEndpoint) (base : BaseQuery) :
  BaseQuery_init []
    [("action", PyStr "GET"); ("creds", py_creds creds);
     ("endpoint", py_endpoint endpoint)] = ret base ->
  exists ep,
    list_buckets
      (S3Client_init BaseQuery_init now s3_endpoint creds endpoint None) =
    ret {| o_bucket := PyNone; o_object_name := PyNone;
           o_data := PyStr ""; o_content_type := PyNone;
           o_metadata := PyDict [];
           o_action := base_action base; o_creds := base_creds base;
           o_endpoint := ep; o_date := now |}.
Proof.
  intros H. eexists. unfold list_buckets. simpl.
  unfold Query_init. simpl. rewrite H. reflexivity.
Qed.

End ClientProperties.

(** ** The model on the sample request *)


Lemma sign_signing_string_witness :
  creds sample_query = Some sample_creds /\
  sign sample_sign sample_query sample_headers =
  Ok (sample_sign sample_creds
        ("PUT" ++ nl ++ "md5<%PDF>" ++ nl ++ nl ++ nl ++
         "x-amz-meta-owner:ann" ++ nl ++ "x-amz-meta-team:core" ++ nl ++
         "/report.pdf") "sha1",
      [sign_call sample_creds
         ("PUT" ++ nl ++ "md5<%PDF>" ++ nl ++ nl ++ nl ++
          "x-amz-meta-owner:ann" ++ nl ++ "x-amz-meta-team:core" ++ nl ++
          "/report.pdf")]).
Proof.
  split; [reflexivity|].
  refine (proj1 (sign_signing_string sample_md5 sample_guess_type sample_sign
                   sample_query sample_creds eq_refl) sample_headers _ _ _);
    intros z H; discriminate H.
Defined.

Lemma get_headers_without_credentials_witness :
  creds (with_creds sample_query None) = None /\
  exists (headers : dict hval) (q' : Query),
    get_headers sample_md5 sample_guess_type sample_sign
      (with_creds sample_query None) = Ok ((headers, q'), []) /\
    dict_get headers "Authorization" = None /\
    dict_get headers "Content-Length" = Some (HInt 4) /\
    dict_get headers "Content-MD5" = Some (HStr "md5<%PDF>") /\
    dict_get headers "Date" = Some (HStr sample_date).
Proof.
  split; [reflexivity|].
  exact (get_headers_without_credentials sample_md5 sample_guess_type
           sample_sign (with_creds sample_query None) eq_refl).
Defined.

Lemma get_headers_guessed_content_type_witness :
  object_name sample_query = Some "report.pdf" /\
  content_type sample_query = None /\
  exists (headers : dict hval) (q' : Query) (calls : list SignCall),
    get_headers sample_md5 sample_guess_type sample_sign sample_query =
      Ok ((headers, q'), calls) /\
    dict_get headers "Content-Type" = Some (HStr "application/pdf").
Proof.
  split; [reflexivity|]. split; [reflexivity|].
  assert (Hn : "report.pdf" <> "" \/ fst (sample_guess_type "") = None)
    by (left; discriminate).
  destruct (get_headers_guessed_content_type sample_md5 sample_guess_type
              sample_sign sample_query "report.pdf" eq_refl Hn eq_refl)
    as (headers & q' & calls & H & _ & _ & _ & Hpdf).
  exists headers, q', calls. split; [exact H|].
  exact (Hpdf eq_refl eq_refl).
Defined.




Lemma sign_ignores_bucket_name_witness :
  (forall headers,
     sign sample_sign (with_bucket sample_query (Some "docs")) headers =
     sign sample_sign (with_bucket sample_query (Some "logs")) headers) /\
  get_host (with_bucket sample_query (Some "docs")) = "docs.s3.amazonaws.com" /\
  get_host (with_bucket sample_query (Some "logs")) = "logs.s3.amazonaws.com" /\
  get_path (with_bucket sample_query (Some "docs")) =
  get_path (with_bucket sample_query (Some "logs")).
Proof.
  pose proof (sign_ignores_bucket_name sample_md5 sample_guess_type
                sample_sign sample_query "docs" "logs") as H.
  cbv zeta in H. destruct H as (H1 & H2 & _).
  split; [exact H1|]. split; [reflexivity|]. split; [reflexivity | exact H2].
Defined.

(** * Further properties of the module *)

(** ** Paths and URIs *)

Lemma startswith_split (s p : string) :
  startswith s p = true -> exists rest, s = p ++ rest.
Proof.
  unfold startswith. revert s.
  induction p as [|c p IH]; intros s H.
  - exists s. reflexivity.
  - destruct s as [|d s]; [discriminate H|]. simpl in H.
    destruct (ascii_dec c d) as [<-|_]; [|discriminate H].
    destruct (IH s H) as [rest ->]. exists rest. reflexivity.
Qed.

(** X1: the path of a Query always starts with ["/"], so its URI is the
    scheme, ["://"], the host, and a path that starts with ["/"]. *)
Theorem get_path_starts_with_slash (q : Query) :
  startswith (get_path q) "/" = true /\
  exists rest : string,
    get_uri q = scheme (endpoint q) ++ "://" ++ get_host q ++ "/" ++ rest.
Proof.
  assert (H : startswith (get_path q) "/" = true).
  { unfold get_path.
    destruct (bucket q) as [b|]; [|reflexivity].
    destruct (object_name q) as [n|]; [|reflexivity].
    destruct (truthy (Some n)); [|reflexivity].
    destruct (startswith n "/") eqn:E; [exact E|].
    destruct n; reflexivity. }
  split; [exact H|].
  destruct (startswith_split _ _ H) as [rest E].
  exists rest. unfold get_uri. now rewrite E.
Qed.

(** ** Canonicalized headers *)

Lemma concat_cons (s : string) (l : list string) :
  String.concat "" (s :: l) = s ++ String.concat "" l.
Proof.
  destruct l as [|t l]; simpl; [now rewrite append_nil_r | reflexivity].
Qed.

Lemma amz_items_nil_iff (h : dict hval) :
  amz_items h = [] <->
  (forall n v, In (n, v) h -> startswith (lower n) amz_prefix = false).
Proof.
  unfold amz_items. induction h as [|[n v] h IH]; simpl.
  - split; [intros _ n v [] | reflexivity].
  - destruct (startswith (lower n) amz_prefix) eqn:E; simpl.
    + split; [discriminate|]. intros H.
      rewrite (H n v (or_introl eq_refl)) in E. discriminate.
    + rewrite IH. split.
      * intros H n' v' [[= <- <-]|Hin]; [exact E | now apply (H n' v')].
      * intros H n' v' Hin. apply (H n' v'). now right.
Qed.

(** X2: the canonicalized string is empty exactly when no header name
    starts, case-insensitively, with ["x-amz-"]; in particular for the
    empty mapping and for the three mandatory headers alone. *)
Theorem canonicalized_empty_iff (headers : dict hval) :
  get_canonicalized_amz_headers headers = "" <->
  (forall n v, In (n, v) headers -> startswith (lower n) "x-amz-" = false).
Proof.
  change "x-amz-" with amz_prefix. rewrite <- amz_items_nil_iff.
  unfold get_canonicalized_amz_headers. split.
  - intros H. destruct (amz_items headers) as [|x l] eqn:E; [reflexivity|].
    exfalso.
    pose proof (sort_perm (x :: l)) as Hp.
    destruct (sort (x :: l)) as [|y l'] eqn:Es.
    + apply Permutation_nil in Hp. discriminate Hp.
    + simpl map in H. rewrite concat_cons in H.
      apply (f_equal String.length) in H. unfold amz_line in H.
      rewrite !length_append in H. simpl in H. lia.
  - intros ->. reflexivity.
Qed.

Lemma amz_items_case (h1 h2 : dict hval) :
  Forall2 (fun a b => lower (fst a) = lower (fst b) /\ snd a = snd b) h1 h2 ->
  amz_items h1 = amz_items h2.
Proof.
  unfold amz_items. induction 1 as [|a b l1 l2 [Hn Hv] _ IH]; simpl.
  - reflexivity.
  - rewrite Hn. destruct (startswith (lower (fst b)) amz_prefix); simpl.
    + now rewrite Hn, Hv, IH.
    + exact IH.
Qed.

(** X3: header names are compared without regard to case: two mappings
    whose headers agree, one by one, up to the case of their names have
    the same canonicalized string. *)
Theorem canonicalized_case_insensitive (h1 h2 : dict hval) :
  Forall2 (fun a b => lower (fst a) = lower (fst b) /\ snd a = snd b) h1 h2 ->
  get_canonicalized_amz_headers h1 = get_canonicalized_amz_headers h2.
Proof.
  intros H. unfold get_canonicalized_amz_headers.
  now rewrite (amz_items_case h1 h2 H).
Qed.

Lemma canonicalized_case_insensitive_witness :
  get_canonicalized_amz_headers
    [("X-Amz-Meta-Owner", HStr "ann"); ("Date", HStr sample_date)] =
  get_canonicalized_amz_headers
    [("x-amz-meta-owner", HStr "ann"); ("date", HStr sample_date)].
Proof.
  apply canonicalized_case_insensitive.
  repeat constructor.
Defined.

(** X4: header values are copied as they are: a value that contains a
    newline followed by ["name:value"] gives the same canonicalized string
    as two separate headers. *)
Theorem canonicalized_value_newline (a b v w : string) :
  startswith (lower a) amz_prefix = true ->
  startswith b amz_prefix = true ->
  lower b = b ->
  item_leb (lower a, HStr v) (b, HStr w) = true ->
  get_canonicalized_amz_headers [(a, HStr (v ++ nl ++ b ++ ":" ++ w))] =
  get_canonicalized_amz_headers [(a, HStr v); (b, HStr w)].
Proof.
  intros Ha Hb Hl Hle.
  unfold get_canonicalized_amz_headers, amz_items.
  cbn [filter map fst snd]. rewrite Ha, Hl, Hb.
  cbn [filter map fst snd sort insert]. rewrite Hl, Hle.
  cbn [map String.concat]. unfold amz_line. cbn [fst snd str].
  change ("" ++ ?s) with s. now rewrite !append_assoc.
Qed.

Lemma canonicalized_value_newline_witness :
  get_canonicalized_amz_headers
    [("x-amz-meta-a", HStr ("1" ++ nl ++ "x-amz-meta-b" ++ ":" ++ "2"))] =
  get_canonicalized_amz_headers
    [("x-amz-meta-a", HStr "1"); ("x-amz-meta-b", HStr "2")].
Proof.
  apply canonicalized_value_newline; reflexivity.
Defined.

(** ** Header names *)

Lemma dict_set_keys {V : Type} (d : dict V) (k : string) (v : V) (n : string) :
  In n (map fst (dict_set d k v)) <-> n = k \/ In n (map fst d).
Proof.
  induction d as [|[k' v'] d IH]; simpl.
  - intuition.
  - destruct (String.eqb_spec k' k) as [->|N]; simpl.
    + intuition.
    + rewrite IH. intuition.
Qed.

Lemma dict_set_NoDup {V : Type} (d : dict V) (k : string) (v : V) :
  NoDup (map fst d) -> NoDup (map fst (dict_set d k v)).
Proof.
  induction d as [|[k' v'] d IH]; simpl; intros H.
  - repeat constructor. intros [].
  - inversion H as [|? ? Hn Hd]; subst.
    destruct (String.eqb_spec k' k) as [->|N]; simpl.
    + now constructor.
    + constructor; [|now apply IH].
      rewrite dict_set_keys. intros [E|Hin]; [now apply N | now apply Hn].
Qed.

Lemma add_metadata_keys (md : dict string) (h : dict hval) (n : string) :
  In n (map fst (add_metadata h md)) ->
  In n (map fst h) \/
  exists k, In k (map fst md) /\ n = meta_prefix ++ k.
Proof.
  unfold add_metadata. revert h.
  induction md as [|[k v] md IH]; intros h; cbn [fold_left fst snd map].
  - now left.
  - intros H. destruct (IH _ H) as [H1|(k' & Hk' & ->)].
    + apply dict_set_keys in H1. destruct H1 as [->|H1].
      * right. exists k. split; [now left | reflexivity].
      * now left.
    + right. exists k'. split; [now right | reflexivity].
Qed.

Lemma add_metadata_NoDup (md : dict string) (h : dict hval) :
  NoDup (map fst h) -> NoDup (map fst (add_metadata h md)).
Proof.
  unfold add_metadata. revert h.
  induction md as [|[k v] md IH]; intros h H; cbn [fold_left];
    [exact H | apply IH, dict_set_NoDup, H].
Qed.

Lemma add_metadata_get_other (md : dict string) (h : dict hval) (k : string) :
  ~ In k (map fst md) ->
  dict_get (add_metadata h md) (meta_prefix ++ k) =
  dict_get h (meta_prefix ++ k).
Proof.
  unfold add_metadata. revert h.
  induction md as [|[k0 v0] md IH]; intros h Hn; cbn [fold_left fst snd];
    [reflexivity|].
  rewrite IH by (intros H; apply Hn; now right).
  apply dict_get_set_neq. intros E. apply append_inv_l in E.
  apply Hn. now left.
Qed.

(** A metadata entry whose key occurs once ends up under its header. *)
Lemma add_metadata_get (md : dict string) (h : dict hval) (k v : string) :
  NoDup (map fst md) -> In (k, v) md ->
  dict_get (add_metadata h md) (meta_prefix ++ k) = Some (HStr v).
Proof.
  revert h.
  induction md as [|[k0 v0] md IH]; intros h Hnd Hin; [destruct Hin|].
  inversion Hnd as [|? ? Hn0 Hnd']; subst.
  change (add_metadata h ((k0, v0) :: md))
    with (add_metadata (dict_set h (meta_prefix ++ k0) (HStr v0)) md).
  destruct Hin as [[= -> ->]|Hin]; [|now apply IH].
  rewrite add_metadata_get_other by exact Hn0.
  apply dict_get_set_eq.
Qed.

Section HeaderProperties.

Variable calculate_md5 : string -> string.
Variable guess_type : string -> option string * option string.
Variable creds_sign : AWSCredentials -> string -> string -> string.

Lemma unsigned_headers_keys (q : Query) (n : string) :
  In n (map fst (unsigned_headers calculate_md5 q)) ->
  In n ["Content-Length"; "Content-MD5"; "Date"; "Content-Type"] \/
  exists k, In k (map fst (metadata q)) /\ n = meta_prefix ++ k.
Proof.
  unfold unsigned_headers. intros H.
  assert (Hm : forall n,
    In n (map fst (add_metadata
      [("Content-Length", HInt (Z.of_nat (String.length (data q))));
       ("Content-MD5", HStr (calculate_md5 (data q)));
       ("Date", HStr (date q))] (metadata q))) ->
    In n ["Content-Length"; "Content-MD5"; "Date"; "Content-Type"] \/
    exists k, In k (map fst (metadata q)) /\ n = meta_prefix ++ k).
  { intros n' H'. destruct (add_metadata_keys _ _ _ H') as [Hin|Hex].
    - left. simpl in Hin. simpl. intuition.
    - now right. }
  destruct (content_type q) as [ct|]; [|now apply Hm].
  apply dict_set_keys in H. destruct H as [->|H]; [|now apply Hm].
  left. simpl. intuition.
Qed.

Lemma unsigned_headers_NoDup (q : Query) :
  NoDup (map fst (unsigned_headers calculate_md5 q)).
Proof.
  unfold unsigned_headers.
  assert (H : NoDup (map fst (add_metadata
      [("Content-Length", HInt (Z.of_nat (String.length (data q))));
       ("Content-MD5", HStr (calculate_md5 (data q)));
       ("Date", HStr (date q))] (metadata q)))).
  { apply add_metadata_NoDup. simpl.
    repeat constructor; simpl; intuition discriminate. }
  destruct (content_type q); [now apply dict_set_NoDup | exact H].
Qed.

(** X5: for every Query, [submit] reaches its one call of [get_page]
    without raising, with the URI of the Query, its action as method, its
    data as body and the headers of [get_headers] as arguments; it
    returns the Deferred of that call and raises only what that call
    raises; on the way it calls the signing capability once when the
    Query has credentials and not at all when it has none. *)
Theorem submit_request (Deferred : Type)
    (get_page : Request -> result Deferred) (q : Query) :
  exists (headers : dict hval) (q' : Query) (calls : list SignCall),
    get_headers calculate_md5 guess_type creds_sign q =
      Ok ((headers, q'), calls) /\
    length calls = match creds q with Some _ => 1 | None => 0 end /\
    submit calculate_md5 guess_type creds_sign Deferred get_page q =
      match get_page {| req_uri := get_uri q; req_method := action q;
                        req_postdata := data q; req_headers := headers |}
      with
      | Ok d => Ok (d, calls)
      | Raise e => Raise e
      end.
Proof.
  unfold submit. rewrite get_headers_eq. cbv zeta.
  destruct (creds q) as [c|]; eexists _, _, _;
    (split; [reflexivity|]); (split; [reflexivity|]);
    cbn [bind fst];
    match goal with |- context [get_page ?r] => destruct (get_page r) end;
    reflexivity.
Qed.

(** X6: whatever the metadata and the credentials, the headers of
    [get_headers] hold the length of the data under Content-Length, its
    MD5 under Content-MD5 and the date of the Query under Date: no
    metadata key can displace them. *)
Theorem get_headers_mandatory (q : Query) :
  exists (headers : dict hval) (q' : Query) (calls : list SignCall),
    get_headers calculate_md5 guess_type creds_sign q =
      Ok ((headers, q'), calls) /\
    dict_get headers "Content-Length" =
      Some (HInt (Z.of_nat (String.length (data q)))) /\
    dict_get headers "Content-MD5" = Some (HStr (calculate_md5 (data q))) /\
    dict_get headers "Date" = Some (HStr (date q)).
Proof.
  rewrite get_headers_eq. cbv zeta.
  destruct (set_content_type_frame guess_type q)
    as (_ & _ & _ & _ & _ & Hd & _ & Hdt).
  cbv zeta in Hd, Hdt.
  destruct (creds q) as [c|]; eexists _, _, _; (split; [reflexivity|]);
    rewrite ?dict_get_set_neq by discriminate;
    rewrite (unsigned_headers_fixed _ _ "Content-Length"),
      (unsigned_headers_fixed _ _ "Content-MD5"),
      (unsigned_headers_fixed _ _ "Date") by (reflexivity || discriminate);
    rewrite Hd, Hdt; repeat split.
Qed.

(** X7: every metadata entry [(k, v)] of a Query (a dictionary: each key
    once) is carried by the header ["x-amz-meta-" ++ k] with value [v]. *)
Theorem get_headers_metadata (q : Query) (k v : string) :
  NoDup (map fst (metadata q)) -> In (k, v) (metadata q) ->
  exists (headers : dict hval) (q' : Query) (calls : list SignCall),
    get_headers calculate_md5 guess_type creds_sign q =
      Ok ((headers, q'), calls) /\
    dict_get headers ("x-amz-meta-" ++ k) = Some (HStr v).
Proof.
  intros Hnd Hin. rewrite get_headers_eq. cbv zeta.
  destruct (set_content_type_frame guess_type q)
    as (_ & _ & _ & _ & _ & _ & Hm & _).
  cbv zeta in Hm.
  assert (H : dict_get (unsigned_headers calculate_md5
                          (set_content_type guess_type q))
                (meta_prefix ++ k) = Some (HStr v)).
  { unfold unsigned_headers. rewrite Hm.
    destruct (content_type (set_content_type guess_type q)).
    - rewrite dict_get_set_neq by discriminate. now apply add_metadata_get.
    - now apply add_metadata_get. }
  change ("x-amz-meta-" ++ k) with (meta_prefix ++ k).
  destruct (creds q) as [c|]; eexists _, _, _; (split; [reflexivity|]).
  - rewrite dict_get_set_neq by discriminate. exact H.
  - exact H.
Qed.

(** X8: [get_headers] returns a dictionary (no name twice) whose names
    are among Content-Length, Content-MD5, Date, Content-Type,
    Authorization and ["x-amz-meta-" ++ k] for the metadata keys [k]. *)
Theorem get_headers_names (q : Query) :
  exists (headers : dict hval) (q' : Query) (calls : list SignCall),
    get_headers calculate_md5 guess_type creds_sign q =
      Ok ((headers, q'), calls) /\
    NoDup (map fst headers) /\
    forall n, In n (map fst headers) ->
      In n ["Content-Length"; "Content-MD5"; "Date"; "Content-Type";
            "Authorization"] \/
      exists k, In k (map fst (metadata q)) /\ n = "x-amz-meta-" ++ k.
Proof.
  rewrite get_headers_eq. cbv zeta.
  destruct (set_content_type_frame guess_type q)
    as (_ & _ & _ & _ & _ & _ & Hm & _).
  cbv zeta in Hm.
  assert (Hk : forall n,
    In n (map fst (unsigned_headers calculate_md5
                     (set_content_type guess_type q))) ->
    In n ["Content-Length"; "Content-MD5"; "Date"; "Content-Type";
          "Authorization"] \/
    exists k, In k (map fst (metadata q)) /\ n = "x-amz-meta-" ++ k).
  { intros n H. destruct (unsigned_headers_keys _ _ H) as [Hin|Hex].
    - left. simpl in Hin. simpl. intuition.
    - right. now rewrite <- Hm. }
  destruct (creds q) as [c|]; eexists _, _, _; (split; [reflexivity|]).
  - split; [apply dict_set_NoDup, unsigned_headers_NoDup|].
    intros n H. apply dict_set_keys in H. destruct H as [->|H].
    + left. simpl. intuition.
    + now apply Hk.
  - split; [apply unsigned_headers_NoDup | exact Hk].
Qed.

End HeaderProperties.

Lemma get_headers_metadata_witness :
  NoDup (map fst (metadata sample_query)) /\
  In ("Team", "core") (metadata sample_query) /\
  exists (headers : dict hval) (q' : Query) (calls : list SignCall),
    get_headers sample_md5 sample_guess_type sample_sign sample_query =
      Ok ((headers, q'), calls) /\
    dict_get headers ("x-amz-meta-" ++ "Team") = Some (HStr "core").
Proof.
  assert (Hnd : NoDup (map fst (metadata sample_query))).
  { simpl. repeat constructor; simpl; intuition discriminate. }
  assert (Hin : In ("Team", "core") (metadata sample_query)) by now left.
  split; [exact Hnd|]. split; [exact Hin|].
  exact (get_headers_metadata sample_md5 sample_guess_type sample_sign
           sample_query "Team" "core" Hnd Hin).
Defined.

(** ** Content type *)

Lemma set_content_type_skip
    (guess_type : string -> option string * option string) (q : Query) :
  truthy (object_name q) = false \/ truthy (content_type q) = true ->
  set_content_type guess_type q = q.
Proof.
  unfold set_content_type. intros [-> | ->]; [reflexivity|].
  now rewrite andb_false_r.
Qed.

Lemma set_content_type_idem
    (guess_type : string -> option string * option string) (q : Query) :
  set_content_type guess_type (set_content_type guess_type q) =
  set_content_type guess_type q.
Proof.
  unfold set_content_type at 2 3.
  destruct (truthy (object_name q) && negb (truthy (content_type q))) eqn:E.
  - destruct (object_name q) as [name|] eqn:Eo; [|discriminate E].
    unfold set_content_type. cbn [object_name content_type].
    destruct (truthy (Some name) && negb (truthy (fst (guess_type name))));
      reflexivity.
  - unfold set_content_type. now rewrite E.
Qed.

(** X9: [guess_type] is consulted only for a Query with a non-empty
    object name and no (or an empty) content type. For any other Query
    the result of [get_headers] is the same whatever [guess_type] is, the
    Query is left as it was, and the Content-Type header is the supplied
    content type, or absent when none was supplied. *)
Theorem get_headers_without_guess (calculate_md5 : string -> string)
    (g1 g2 : string -> option string * option string)
    (creds_sign : AWSCredentials -> string -> string -> string) (q : Query) :
  truthy (object_name q) = false \/ truthy (content_type q) = true ->
  get_headers calculate_md5 g1 creds_sign q =
    get_headers calculate_md5 g2 creds_sign q /\
  exists (headers : dict hval) (calls : list SignCall),
    get_headers calculate_md5 g1 creds_sign q = Ok ((headers, q), calls) /\
    dict_get headers "Content-Type" = option_map HStr (content_type q).
Proof.
  intros H. rewrite !get_headers_eq. cbv zeta.
  rewrite !(set_content_type_skip _ q H). split; [reflexivity|].
  destruct (creds q) as [c|]; eexists _, _; (split; [reflexivity|]).
  - rewrite dict_get_set_neq by discriminate.
    apply unsigned_headers_content_type.
  - apply unsigned_headers_content_type.
Qed.

Lemma get_headers_without_guess_witness :
  let q := with_bucket sample_query (Some "docs") in
  let q := {| action := action q; creds := creds q; endpoint := endpoint q;
              bucket := bucket q; object_name := object_name q;
              data := data q; content_type := Some "text/x-report";
              metadata := metadata q; date := date q |} in
  exists (headers : dict hval) (calls : list SignCall),
    get_headers sample_md5 sample_guess_type sample_sign q =
      Ok ((headers, q), calls) /\
    dict_get headers "Content-Type" = Some (HStr "text/x-report").
Proof.
  intros q0 q.
  exact (proj2 (get_headers_without_guess sample_md5 sample_guess_type
                  (fun _ => (None, None)) sample_sign q
                  (or_intror eq_refl))).
Defined.

(** X10: an empty content type counts as none: on a Query with a
    non-empty object name it is replaced by what [guess_type] finds, and
    the Content-Type header is that type, or absent if there is none. *)
Theorem get_headers_empty_content_type (calculate_md5 : string -> string)
    (guess_type : string -> option string * option string)
    (creds_sign : AWSCredentials -> string -> string -> string)
    (q : Query) (name : string) :
  content_type q = Some "" -> object_name q = Some name -> name <> "" ->
  exists (headers : dict hval) (q' : Query) (calls : list SignCall),
    get_headers calculate_md5 guess_type creds_sign q =
      Ok ((headers, q'), calls) /\
    content_type q' = fst (guess_type name) /\
    dict_get headers "Content-Type" = option_map HStr (fst (guess_type name)).
Proof.
  intros Hct Ho Hn.
  assert (Hq : content_type (set_content_type guess_type q) =
               fst (guess_type name)).
  { unfold set_content_type. rewrite Ho, Hct. simpl.
    destruct (String.eqb_spec name "") as [E|_]; [contradiction|].
    reflexivity. }
  rewrite get_headers_eq. cbv zeta.
  destruct (creds q) as [c|]; eexists _, _, _;
    (split; [reflexivity|]); (split; [exact Hq|]).
  - rewrite dict_get_set_neq by discriminate.
    now rewrite unsigned_headers_content_type, Hq.
  - now rewrite unsigned_headers_content_type, Hq.
Qed.

Lemma get_headers_empty_content_type_witness :
  let q := {| action := "PUT"; creds := None; endpoint := sample_endpoint;
              bucket := Some "docs"; object_name := Some "notes";
              data := ""; content_type := Some ""; metadata := [];
              date := sample_date |} in
  exists (headers : dict hval) (q' : Query) (calls : list SignCall),
    get_headers sample_md5 sample_guess_type sample_sign q =
      Ok ((headers, q'), calls) /\
    content_type q' = None /\
    dict_get headers "Content-Type" = None.
Proof.
  intros q.
  assert (Hn : "notes" <> "") by discriminate.
  exact (get_headers_empty_content_type sample_md5 sample_guess_type
           sample_sign q "notes" eq_refl eq_refl Hn).
Defined.

(** ** Repeated calls and signing *)

Section SigningFurther.

Variable calculate_md5 : string -> string.
Variable guess_type : string -> option string * option string.
Variable creds_sign : AWSCredentials -> string -> string -> string.

(** X11: a second call of [get_headers] on the same Query gives the
    result of the first: the same headers, the same signed text, and the
    Query unchanged. *)
Theorem get_headers_idempotent (q q' : Query) (headers : dict hval)
    (calls : list SignCall) :
  get_headers calculate_md5 guess_type creds_sign q =
    Ok ((headers, q'), calls) ->
  get_headers calculate_md5 guess_type creds_sign q' =
    Ok ((headers, q'), calls).
Proof.
  intros H. rewrite get_headers_eq in H. cbv zeta in H.
  assert (Hq : q' = set_content_type guess_type q)
    by (destruct (creds q); now injection H as _ <- _).
  rewrite <- H. subst q'. rewrite !get_headers_eq. cbv zeta.
  rewrite set_content_type_idem.
  destruct (set_content_type_frame guess_type q)
    as (Ha & Hc & _ & _ & _ & Hd & _ & Hdt).
  cbv zeta in Ha, Hc, Hd, Hdt.
  now rewrite Ha, Hc, Hd, Hdt, get_path_set_content_type.
Qed.

(** X12: the signature covers only the method, the Content-MD5,
    Content-Type and Date headers, the [x-amz-] headers and the path:
    setting any other header (Content-Length, for one) leaves the result
    of [sign], the signed text included, as it was. *)
Theorem sign_ignores_other_headers (q : Query) (headers : dict hval)
    (k : string) (v : hval) :
  k <> "Content-MD5" -> k <> "Content-Type" -> k <> "Date" ->
  startswith (lower k) "x-amz-" = false ->
  sign creds_sign q (dict_set headers k v) = sign creds_sign q headers.
Proof.
  intros H1 H2 H3 H4. unfold sign, header_text.
  rewrite !dict_get_set_neq by assumption.
  now rewrite canonicalized_set_other by exact H4.
Qed.


End SigningFurther.

Lemma get_headers_idempotent_witness :
  exists (headers : dict hval) (q' : Query) (calls : list SignCall),
    get_headers sample_md5 sample_guess_type sample_sign sample_query =
      Ok ((headers, q'), calls) /\
    get_headers sample_md5 sample_guess_type sample_sign q' =
      Ok ((headers, q'), calls) /\
    content_type q' = Some "application/pdf".
Proof.
  eexists _, _, _. split; [reflexivity|]. split; [|reflexivity].
  apply (get_headers_idempotent sample_md5 sample_guess_type sample_sign
           sample_query).
  reflexivity.
Defined.

Lemma sign_ignores_other_headers_witness :
  sign sample_sign sample_query
    (dict_set sample_headers "Content-Length" (HInt 4)) =
  sign sample_sign sample_query sample_headers.
Proof.
  apply sign_ignores_other_headers; (discriminate || reflexivity).
Defined.

(** ** Constructing a Query *)

Lemma bind_keywords_keeps (fname : string) (params : dict pyval)
    (kwargs bound extra bound' extra' : dict pyval)
    (t : list SignCall) (p : string) (v : pyval) :
  bind_keywords fname params bound extra kwargs = Ok ((bound', extra'), t) ->
  dict_get bound p = Some v -> dict_get bound' p = Some v.
Proof.
  revert bound extra.
  induction kwargs as [|[k w] kwargs IH]; intros bound extra H Hp;
    cbn [bind_keywords] in H.
  - injection H as <- _ _. exact Hp.
  - destruct (dict_get params k).
    + destruct (dict_get bound k) eqn:Ek; [discriminate H|].
      apply (IH _ _ H). rewrite dict_get_set_neq; [exact Hp|].
      intros ->. rewrite Hp in Ek. discriminate Ek.
    + now apply (IH _ _ H).
Qed.

Lemma bind_keywords_duplicate (fname : string) (params : dict pyval)
    (kwargs bound extra : dict pyval) :
  (exists k v, In (k, v) kwargs /\ dict_get params k <> None /\
               dict_get bound k <> None) ->
  exists k,
    bind_keywords fname params bound extra kwargs =
    Raise (TypeError (fname ++
      "() got multiple values for keyword argument '" ++ k ++ "'")).
Proof.
  revert bound extra.
  induction kwargs as [|[k1 w1] kwargs IH]; intros bound extra
    (k & v & Hin & Hp & Hb); [destruct Hin|].
  cbn [bind_keywords].
  destruct (dict_get params k1) eqn:E1.
  - destruct (dict_get bound k1) eqn:E2; [now exists k1|].
    apply IH. exists k, v.
    destruct Hin as [[= -> ->]|Hin]; [contradiction|].
    split; [exact Hin|]. split; [exact Hp|].
    destruct (String.eqb_spec k1 k) as [->|N].
    + now rewrite dict_get_set_eq.
    + now rewrite dict_get_set_neq.
  - apply IH. exists k, v.
    destruct Hin as [[= -> ->]|Hin]; [contradiction|]. auto.
Qed.

Section ConstructorProperties.

Variable BaseQuery_init : list pyval -> dict pyval -> M BaseQuery.
Variable now : string.
Variable s3_endpoint : AWSServiceEndpoint.

(** A successful construction, taken apart. *)
Lemma Query_init_inv (args : list pyval) (kwargs : dict pyval)
    (o : QueryObj) (t : list SignCall) :
  Query_init BaseQuery_init now s3_endpoint args kwargs = Ok (o, t) ->
  exists bound extra base t1 t2,
    bind_keywords "__init__" Query_params
      (fst (bind_positional Query_params args)) [] kwargs =
      Ok ((bound, extra), t1) /\
    BaseQuery_init (snd (bind_positional Query_params args)) extra =
      Ok (base, t2) /\
    o = {| o_bucket := param Query_params bound "bucket";
           o_object_name := param Query_params bound "object_name";
           o_data := param Query_params bound "data";
           o_content_type := param Query_params bound "content_type";
           o_metadata := param Query_params bound "metadata";
           o_action := base_action base; o_creds := base_creds base;
           o_endpoint :=
             set_method
               match base_endpoint base with
               | None => s3_endpoint
               | Some e => if host e =? "" then s3_endpoint else e
               end (base_action base);
           o_date := now |}.
Proof.
  unfold Query_init.
  destruct (bind_positional Query_params args) as [bound0 rest].
  cbn [fst snd].
  destruct (bind_keywords "__init__" Query_params bound0 [] kwargs)
    as [[[bound extra] t1]|e]; cbn [bind]; [|discriminate].
  cbn [fst snd].
  destruct (BaseQuery_init rest extra) as [[base t2]|e] eqn:Eb;
    cbn [bind ret]; [|discriminate].
  intros [= <- _]. now exists bound, extra, base, t1, t2.
Qed.

(** X14: positional arguments of [Query(...)] fill [bucket],
    [object_name], [data], [content_type] and [metadata], in this order:
    the first positional argument is the bucket, never the action. *)
Theorem Query_init_positional (args : list pyval) (kwargs : dict pyval)
    (o : QueryObj) (t : list SignCall) :
  Query_init BaseQuery_init now s3_endpoint args kwargs = Ok (o, t) ->
  (forall a, nth_error args 0 = Some a -> o_bucket o = a) /\
  (forall a, nth_error args 1 = Some a -> o_object_name o = a) /\
  (forall a, nth_error args 2 = Some a -> o_data o = a) /\
  (forall a, nth_error args 3 = Some a -> o_content_type o = a) /\
  (forall a, nth_error args 4 = Some a -> o_metadata o = a).
Proof.
  intros H.
  destruct (Query_init_inv _ _ _ _ H)
    as (bound & extra & base & t1 & t2 & Hk & _ & ->).
  cbn [o_bucket o_object_name o_data o_content_type o_metadata].
  assert (Hp : forall p a,
    dict_get (fst (bind_positional Query_params args)) p = Some a ->
    param Query_params bound p = a).
  { intros p a Hp. unfold param.
    now rewrite (bind_keywords_keeps _ _ _ _ _ _ _ _ _ _ Hk Hp). }
  destruct args as [|a0 [|a1 [|a2 [|a3 [|a4 rest]]]]];
    repeat split; intros a [= <-]; apply Hp; reflexivity.
Qed.

(** X15: a keyword argument that names a parameter already filled by
    position makes [Query(...)] raise [TypeError] (multiple values for a
    keyword argument), before [BaseQuery.__init__] is reached. *)
Theorem Query_init_duplicate_keyword (args : list pyval)
    (kwargs : dict pyval) (i : nat) (p : string) (d v : pyval) :
  nth_error Query_params i = Some (p, d) -> i < length args ->
  In (p, v) kwargs ->
  exists k,
    Query_init BaseQuery_init now s3_endpoint args kwargs =
    Raise (TypeError
      ("__init__() got multiple values for keyword argument '" ++ k ++ "'")).
Proof.
  intros Hp Hi Hin.
  assert (Hd : exists k v, In (k, v) kwargs /\
    dict_get Query_params k <> None /\
    dict_get (fst (bind_positional Query_params args)) k <> None).
  { exists p, v. split; [exact Hin|].
    destruct i as [|[|[|[|[|i]]]]];
      try (destruct i; discriminate Hp);
      injection Hp as <- _; (split; [discriminate|]);
      destruct args as [|a0 [|a1 [|a2 [|a3 [|a4 rest]]]]];
      simpl in Hi; try lia; discriminate. }
  destruct (bind_keywords_duplicate "__init__" Query_params kwargs
              (fst (bind_positional Query_params args)) [] Hd) as [k Hk].
  exists k. unfold Query_init.
  destruct (bind_positional Query_params args) as [bound0 rest].
  cbn [fst] in Hk. now rewrite Hk.
Qed.

Lemma bind_positional_rest (args : list pyval) :
  snd (bind_positional Query_params args) = skipn 5 args.
Proof.
  destruct args as [|a0 [|a1 [|a2 [|a3 [|a4 rest]]]]]; reflexivity.
Qed.

(** X16: a constructed Query holds the action and the credentials that
    [BaseQuery.__init__] stored (it is called with the positional
    arguments after the fifth and the keywords that name no parameter),
    and the time of the call as its date. Its endpoint is the S3 endpoint
    when [BaseQuery.__init__] stored none or one with an empty host, and
    the stored endpoint otherwise, in each case with the action of the
    Query as its method; so its host is not empty as long as that of the
    S3 endpoint is not. *)
Theorem Query_init_endpoint (args : list pyval) (kwargs : dict pyval)
    (o : QueryObj) (t : list SignCall) :
  Query_init BaseQuery_init now s3_endpoint args kwargs = Ok (o, t) ->
  exists (bound extra : dict pyval) (base : BaseQuery)
         (t1 t2 : list SignCall),
    bind_keywords "__init__" Query_params
      (fst (bind_positional Query_params args)) [] kwargs =
      Ok ((bound, extra), t1) /\
    BaseQuery_init (skipn 5 args) extra = Ok (base, t2) /\
    o_action o = base_action base /\
    o_creds o = base_creds base /\
    o_date o = now /\
    method (o_endpoint o) = o_action o /\
    (base_endpoint base = None ->
     o_endpoint o = set_method s3_endpoint (o_action o)) /\
    (forall e, base_endpoint base = Some e -> host e = "" ->
     o_endpoint o = set_method s3_endpoint (o_action o)) /\
    (forall e, base_endpoint base = Some e -> host e <> "" ->
     o_endpoint o = set_method e (o_action o)) /\
    (host s3_endpoint <> "" -> host (o_endpoint o) <> "").
Proof.
  intros H.
  destruct (Query_init_inv _ _ _ _ H)
    as (bound & extra & base & t1 & t2 & Hk & Hb & ->).
  rewrite bind_positional_rest in Hb.
  exists bound, extra, base, t1, t2.
  cbn [o_endpoint o_action o_date o_creds].
  split; [exact Hk|]. split; [exact Hb|].
  split; [reflexivity|]. split; [reflexivity|]. split; [reflexivity|].
  split; [reflexivity|]. split; [|split; [|split]].
  - intros ->. reflexivity.
  - intros e -> ->. reflexivity.
  - intros e -> Hne.
    destruct (String.eqb_spec (host e) ""); [contradiction | reflexivity].
  - intros Hs. unfold set_method. cbn [host].
    destruct (base_endpoint base) as [e|]; [|exact Hs].
    destruct (String.eqb_spec (host e) ""); [exact Hs | assumption].
Qed.

(** X17: [list_buckets] constructs its Query by keywords alone: the
    Query it submits has no bucket, no object name, no data, no content
    type and no metadata, so it addresses the root of the service: the
    path is ["/"] and the host is that of the endpoint. *)
Theorem list_buckets_targets_root (c : option AWSCredentials)
    (e : option AWSServiceEndpoint) (o : QueryObj) (t : list SignCall) :
  list_buckets (S3Client_init BaseQuery_init now s3_endpoint c e None) =
    Ok (o, t) ->
  exists (q : Query) (base : BaseQuery) (t' : list SignCall),
    BaseQuery_init []
      [("action", PyStr "GET"); ("creds", py_creds c);
       ("endpoint", py_endpoint e)] = Ok (base, t') /\
    as_query o = Some q /\
    action q = base_action base /\
    bucket q = None /\ object_name q = None /\ data q = "" /\
    content_type q = None /\ metadata q = [] /\
    get_path q = "/" /\
    get_host q = host (endpoint q) /\
    get_uri q = scheme (endpoint q) ++ "://" ++ host (endpoint q) ++ "/".
Proof.
  intros H. unfold list_buckets in H. simpl in H.
  destruct (Query_init BaseQuery_init now s3_endpoint []
              [("action", PyStr "GET"); ("creds", py_creds c);
               ("endpoint", py_endpoint e)]) as [[o' t1]|err] eqn:EQ;
    [|discriminate H].
  injection H as -> _.
  destruct (Query_init_inv _ _ _ _ EQ)
    as (bound & extra & base & t2 & t3 & Hk & Hb & ->).
  simpl in Hk. injection Hk as <- <- _. simpl in Hb.
  eexists _, base, t3. split; [exact Hb|].
  split; [reflexivity|]. repeat split.
Qed.

(** X18: were [make_request] to find a [request_factory] that is
    [Query], [put_object] would still not build the request it is meant
    to: the method ["PUT"] lands in [bucket], the bucket in
    [object_name], the object name in [data], the data in [content_type]
    and the content type in [metadata], and [BaseQuery.__init__] gets the
    metadata as its one positional argument and no action. *)
Theorem put_object_binding (c : option AWSCredentials)
    (e : option AWSServiceEndpoint) (b n d : string) (ct : option string)
    (md : dict string) :
  let client :=
    ("request_factory", AFactory (Query_init BaseQuery_init now s3_endpoint))
    :: S3Client_init BaseQuery_init now s3_endpoint c e None in
  put_object client b n d ct md =
  (base <- BaseQuery_init [PyDict md]
             [("creds", py_creds c); ("endpoint", py_endpoint e)] ;;
   ret {| o_bucket := PyStr "PUT"; o_object_name := PyStr b;
          o_data := PyStr n; o_content_type := PyStr d;
          o_metadata := py_str ct;
          o_action := base_action base; o_creds := base_creds base;
          o_endpoint :=
            set_method
              match base_endpoint base with
              | None => s3_endpoint
              | Some e' => if host e' =? "" then s3_endpoint else e'
              end (base_action base);
          o_date := now |}).
Proof.
  intros client. unfold put_object, make_request, client. simpl.
  unfold Query_init. simpl.
  destruct (BaseQuery_init [PyDict md]
              [("creds", py_creds c); ("endpoint", py_endpoint e)])
    as [[base t]|err]; reflexivity.
Qed.

End ConstructorProperties.

Lemma Query_init_positional_witness :
  exists (o : QueryObj) (t : list SignCall),
    Query_init sample_BaseQuery_init sample_date sample_endpoint
      [PyStr "docs"; PyStr "report.pdf"] [("action", PyStr "GET")] =
      Ok (o, t) /\
    o_bucket o = PyStr "docs" /\ o_object_name o = PyStr "report.pdf".
Proof.
  destruct (Query_init sample_BaseQuery_init sample_date sample_endpoint
              [PyStr "docs"; PyStr "report.pdf"] [("action", PyStr "GET")])
    as [[o t]|err] eqn:H; [|discriminate H].
  exists o, t. split; [reflexivity|].
  destruct (Query_init_positional _ _ _ _ _ _ _ H) as (H0 & H1 & _).
  split; [apply H0 | apply H1]; reflexivity.
Defined.

Lemma Query_init_duplicate_keyword_witness :
  exists k : string,
    Query_init sample_BaseQuery_init sample_date sample_endpoint
      [PyStr "PUT"] [("bucket", PyStr "docs")] =
    Raise (TypeError
      ("__init__() got multiple values for keyword argument '" ++ k ++ "'")).
Proof.
  apply (Query_init_duplicate_keyword sample_BaseQuery_init sample_date
           sample_endpoint [PyStr "PUT"] [("bucket", PyStr "docs")]
           0 "bucket" PyNone (PyStr "docs"));
    [reflexivity | apply Nat.lt_0_succ | now left].
Defined.

Lemma Query_init_endpoint_witness :
  exists (o : QueryObj) (t : list SignCall),
    Query_init sample_BaseQuery_init sample_date sample_endpoint []
      [("action", PyStr "GET");
       ("endpoint",
        PyEndpoint {| scheme := "http"; host := ""; method := "" |})] =
      Ok (o, t) /\
    o_endpoint o = set_method sample_endpoint "GET" /\
    o_date o = sample_date.
Proof.
  destruct (Query_init sample_BaseQuery_init sample_date sample_endpoint []
              [("action", PyStr "GET");
               ("endpoint",
                PyEndpoint {| scheme := "http"; host := "";
                              method := "" |})])
    as [[o t]|err] eqn:H; [|discriminate H].
  exists o, t. split; [reflexivity|].
  destruct (Query_init_endpoint _ _ _ _ _ _ _ H)
    as (bound & extra & base & t1 & t2 & Hk & Hb & Ha & _ & Hd & _ & _ &
        He & _).
  injection Hk as _ <- _. injection Hb as <- _.
  split; [|exact Hd].
  rewrite (He _ eq_refl eq_refl), Ha. reflexivity.
Defined.

Lemma list_buckets_targets_root_witness :
  exists (o : QueryObj) (t : list SignCall) (q : Query),
    list_buckets
      (S3Client_init sample_BaseQuery_init sample_date sample_endpoint
         (Some sample_creds) None None) = Ok (o, t) /\
    as_query o = Some q /\ action q = "GET" /\
    get_uri q = "https://s3.amazonaws.com/".
Proof.
  destruct (list_buckets
              (S3Client_init sample_BaseQuery_init sample_date
                 sample_endpoint (Some sample_creds) None None))
    as [[o t]|err] eqn:H; [|discriminate H].
  destruct (list_buckets_targets_root _ _ _ _ _ _ _ H)
    as (q & base & t' & Hb & Hq & Ha & _ & _ & _ & _ & _ & _ & _ & Hu).
  exists o, t, q. split; [reflexivity|]. split; [exact Hq|].
  injection Hb as <- _. split; [exact Ha|].
  rewrite Hu. injection H as <- _. now injection Hq as <-.
Defined.

(** ** The bucket listing *)

Section ListBucketsProperties.

Variable Time : Type.
Variable fromISO8601TimeAndDate : option string -> result Time.
Variable XML : string -> result Element.

Lemma parse_buckets_all (buckets : list Element) :
  Forall (fun b =>
            exists t,
              fromISO8601TimeAndDate (findtext b "CreationDate") = Ok t)
         buckets ->
  exists ys,
    parse_buckets Time fromISO8601TimeAndDate buckets = (ys, None) /\
    Forall2
      (fun b y =>
         b_name Time y = findtext b "Name" /\
         fromISO8601TimeAndDate (findtext b "CreationDate") =
           Ok (b_created Time y))
      buckets ys.
Proof.
  induction 1 as [|b rest [t Ht] _ (ys & E & IH)]; cbn [parse_buckets].
  - exists []. split; [reflexivity | constructor].
  - rewrite Ht, E. eexists. split; [reflexivity|].
    constructor; [|exact IH]. split; [reflexivity | exact Ht].
Qed.

Lemma parse_buckets_stop (before after : list Element) (b : Element)
    (e : exn) :
  Forall (fun b =>
            exists t,
              fromISO8601TimeAndDate (findtext b "CreationDate") = Ok t)
         before ->
  fromISO8601TimeAndDate (findtext b "CreationDate") = Raise e ->
  exists ys,
    parse_buckets Time fromISO8601TimeAndDate (before ++ b :: after)%list =
      (ys, Some e) /\
    Forall2
      (fun b y =>
         b_name Time y = findtext b "Name" /\
         fromISO8601TimeAndDate (findtext b "CreationDate") =
           Ok (b_created Time y))
      before ys.
Proof.
  intros H Hb.
  induction H as [|b0 rest [t Ht] _ (ys & E & IH)];
    cbn [parse_buckets app].
  - rewrite Hb. exists []. split; [reflexivity | constructor].
  - rewrite Ht, E. eexists. split; [reflexivity|].
    constructor; [|exact IH]. split; [reflexivity | exact Ht].
Qed.

(** X19: when the document has a [Buckets] element and the creation date
    of each of its children is accepted, [_parse_list_buckets] yields one
    record per child, whatever the child's tag, in document order, with
    the text of its [Name] as name and its parsed [CreationDate], and
    ends without an exception. *)
Theorem parse_list_buckets_complete (xml_bytes : string)
    (root buckets : Element) :
  XML xml_bytes = Ok root ->
  find root "Buckets" = Some buckets ->
  Forall (fun b =>
            exists t,
              fromISO8601TimeAndDate (findtext b "CreationDate") = Ok t)
         (elem_children buckets) ->
  exists ys : list (BucketInfo Time),
    _parse_list_buckets Time fromISO8601TimeAndDate XML xml_bytes =
      (ys, None) /\
    Forall2
      (fun b y =>
         b_name Time y = findtext b "Name" /\
         fromISO8601TimeAndDate (findtext b "CreationDate") =
           Ok (b_created Time y))
      (elem_children buckets) ys.
Proof.
  intros Hx Hf Hall. unfold _parse_list_buckets. rewrite Hx, Hf.
  exact (parse_buckets_all _ Hall).
Qed.

(** X20: how [_parse_list_buckets] fails. An exception of the XML parser
    ends it with nothing yielded; so does a document without a [Buckets]
    element, with a [TypeError]; and a creation date that is refused ends
    it with that exception after the records of the children before it. *)
Theorem parse_list_buckets_failures (xml_bytes : string) :
  (forall e, XML xml_bytes = Raise e ->
     _parse_list_buckets Time fromISO8601TimeAndDate XML xml_bytes =
       ([], Some e)) /\
  (forall root, XML xml_bytes = Ok root -> find root "Buckets" = None ->
     _parse_list_buckets Time fromISO8601TimeAndDate XML xml_bytes =
       ([], Some (TypeError "'NoneType' object is not iterable"))) /\
  (forall root buckets before b after e,
     XML xml_bytes = Ok root -> find root "Buckets" = Some buckets ->
     elem_children buckets = (before ++ b :: after)%list ->
     Forall (fun b =>
               exists t,
                 fromISO8601TimeAndDate (findtext b "CreationDate") = Ok t)
            before ->
     fromISO8601TimeAndDate (findtext b "CreationDate") = Raise e ->
     exists ys : list (BucketInfo Time),
       _parse_list_buckets Time fromISO8601TimeAndDate XML xml_bytes =
         (ys, Some e) /\
       Forall2
         (fun b y =>
            b_name Time y = findtext b "Name" /\
            fromISO8601TimeAndDate (findtext b "CreationDate") =
              Ok (b_created Time y))
         before ys).
Proof.
  unfold _parse_list_buckets. split; [|split].
  - intros e ->. reflexivity.
  - intros root -> ->. reflexivity.
  - intros root buckets before b after e -> -> -> Hall Hb.
    exact (parse_buckets_stop _ _ _ _ Hall Hb).
Qed.

End ListBucketsProperties.

Lemma parse_list_buckets_complete_witness :
  exists ys : list (BucketInfo string),
    _parse_list_buckets string sample_fromISO sample_XML "<xml/>" =
      (ys, None) /\
    map (b_name string) ys = [Some "alpha"; Some "beta"] /\
    map (b_created string) ys =
      ["2023-01-01T00:00:00Z"; "2023-02-01T00:00:00Z"].
Proof.
  assert (Hall : Forall
    (fun b => exists t, sample_fromISO (findtext b "CreationDate") = Ok t)
    (elem_children
       (Elem "Buckets" None
          [Elem "Bucket" None
             [Elem "Name" (Some "alpha") [];
              Elem "CreationDate" (Some "2023-01-01T00:00:00Z") []];
           Elem "Bucket" None
             [Elem "Name" (Some "beta") [];
              Elem "CreationDate" (Some "2023-02-01T00:00:00Z") []]]))).
  { repeat constructor; eexists; reflexivity. }
  destruct (parse_list_buckets_complete string sample_fromISO sample_XML
              "<xml/>" sample_listing _ eq_refl eq_refl Hall)
    as (ys & E & _).
  exists ys. split; [exact E|].
  injection E as <-. split; reflexivity.
Defined.
